(** * CLI dispatch, logging levels and exit codes of the example scripts

    Shallow embedding of
    - [examples/typer/cli-app-typer.py]      (module [TyperApp]),
    - [examples/argparse/cli-app-argparse.py] (module [ArgparseApp]),
    over a small model of the Python objects and effects they use
    (module [Py]).  Properties are stated and proved after the embedding. *)

From Stdlib Require Import ZArith String Ascii List Lia Bool.
From stdpp Require Import base decidable option gmap strings list.

Local Open Scope string_scope.
Local Open Scope list_scope.
Local Open Scope Z_scope.

(* ===================================================================== *)
(** ** Python values, exceptions and effects                              *)
(* ===================================================================== *)

Module Py.

(** Attribute values.  The scripts only ever apply [int(...)] and a truth
    test to an attribute, so an object that is neither [None], a [bool] nor
    an [int] is represented by what these two operations observe on it:
    the result of [int(obj)] (or the name of the exception it raises) and
    its truth value. *)
Inductive value :=
| VNone
| VBool (b : bool)
| VInt (n : Z)
| VObj (as_int : Z + string) (truth : bool).

Definition truthy (v : value) : bool :=
  match v with
  | VNone => false
  | VBool b => b
  | VInt n => negb (n =? 0)
  | VObj _ t => t
  end.

(** Exception classes.  The eight named constructors are the classes listed
    in [user_errors]; [Derived] is a class statement with one base, and
    [Foreign] is any other [Exception] subclass (TypeError, KeyError, a bare
    OSError, ...). *)
Inductive exc_class :=
| PermissionError
| FileExistsError
| FileNotFoundError
| InterruptedError
| IsADirectoryError
| NotADirectoryError
| TimeoutError
| MyAppException
| Derived (name : string) (base : exc_class)
| Foreign (name : string).

#[global] Instance exc_class_eq_dec : EqDecision exc_class.
Proof. solve_decision. Defined.

(** [cls.__name__] *)
Definition class_name (c : exc_class) : string :=
  match c with
  | PermissionError => "PermissionError"
  | FileExistsError => "FileExistsError"
  | FileNotFoundError => "FileNotFoundError"
  | InterruptedError => "InterruptedError"
  | IsADirectoryError => "IsADirectoryError"
  | NotADirectoryError => "NotADirectoryError"
  | TimeoutError => "TimeoutError"
  | MyAppException => "MyAppException"
  | Derived name _ => name
  | Foreign name => name
  end.

(** [issubclass c k] *)
Fixpoint issubclass (c k : exc_class) : bool :=
  if decide (c = k) then true
  else match c with
       | Derived _ base => issubclass base k
       | _ => false
       end.

(** The seven builtin members of [user_errors] are all subclasses of
    [OSError]. *)
Definition os_error_kinds : list exc_class :=
  [PermissionError; FileExistsError; FileNotFoundError; InterruptedError;
   IsADirectoryError; NotADirectoryError; TimeoutError].

Definition is_os_error (c : exc_class) : bool :=
  existsb (issubclass c) os_error_kinds.

(** An exception instance: its class, the attributes set on the instance or
    declared by a derived class, and [str(err)]. *)
Record exception := Exception {
  exc_class_of : exc_class;
  exc_attrs : gmap string value;
  exc_message : string;
}.

(** Attributes supplied by the classes themselves:
    [MyAppException.rc = 1] (class body in the script), and the [errno]
    member that every [OSError] instance has, [None] unless the instance
    was built with an error number.  ([errno] is given for the seven kinds
    of [user_errors] and the classes derived from them, the only instances
    whose [errno] the script reads.) *)
Definition class_attr (c : exc_class) (name : string) : option value :=
  if issubclass c MyAppException && String.eqb name "rc" then Some (VInt 1)
  else if is_os_error c && String.eqb name "errno" then Some VNone
  else None.

(** [getattr(err, name, default)] *)
Definition getattr (err : exception) (name : string) (default : value) : value :=
  match exc_attrs err !! name with
  | Some v => v
  | None =>
      match class_attr (exc_class_of err) name with
      | Some v => v
      | None => default
      end
  end.

(** [isinstance(err, classes)] for a tuple of classes *)
Definition isinstance (err : exception) (classes : list exc_class) : bool :=
  existsb (issubclass (exc_class_of err)) classes.

(** Severities of the [logging] module. *)
Definition CRITICAL : Z := 50.
Definition ERROR : Z := 40.
Definition WARNING : Z := 30.
Definition WARN : Z := WARNING.
Definition INFO : Z := 20.
Definition DEBUG : Z := 10.
Definition NOTSET : Z := 0.

(** Arguments of a %-style log call. *)
Inductive log_arg :=
| ArgStr (s : string)
| ArgInt (n : Z)
| ArgClass (c : exc_class).

(** What is handed to a logger method. *)
Inductive log_msg :=
| MsgStr (s : string)
| MsgFmt (fmt : string) (args : list log_arg)
| MsgValue (v : value)
| MsgExc (err : exception)          (* the exception object itself: str(err) *)
| MsgTraceback (err : exception).   (* traceback.format_exc() while handling err *)

(** Which logger [setLevel] is applied to in the Typer script. *)
Inductive logger_target :=
| RootLogger            (* logging.getLogger(None) *)
| PackageLogger.        (* logging.getLogger(__package__) *)

(** Observable effects, in program order.  [PrintObj] is a [print] of a
    formatted string that embeds objects: it records the format and the
    objects formatted (by a text that identifies them), not the rendered
    line. *)
Inductive event :=
| Log (lvl : Z) (m : log_msg)
| Print (s : string)
| PrintObj (fmt : string) (parts : list string)
| PrintHelp
| UsageError (msg : string)
| SetLevel (target : logger_target) (lvl : Z).

(** How a piece of Python code ends. *)
Inductive result (A : Type) :=
| Ret (a : A)
| Raise (err : exception)
| SysExit (code : Z).
Arguments Ret {A} a.
Arguments Raise {A} err.
Arguments SysExit {A} code.

(** Computations: the effects performed so far and how the code ended. *)
Definition M (A : Type) : Type := list event * result A.

Definition ret {A} (a : A) : M A := ([], Ret a).

Definition bind {A B} (m : M A) (k : A -> M B) : M B :=
  match m with
  | (t, Ret a) => let '(t', r) := k a in (t ++ t', r)
  | (t, Raise err) => (t, Raise err)
  | (t, SysExit code) => (t, SysExit code)
  end.

Definition emit (e : event) : M unit := ([e], Ret tt).
Definition raise {A} (err : exception) : M A := ([], Raise err).

(** [sys.exit(code)] raises [SystemExit], which is not an [Exception]. *)
Definition sys_exit {A} (code : Z) : M A := ([], SysExit code).

(** [try: body  except Exception as err: handler(err)] *)
Definition try_except {A} (body : M A) (handler : exception -> M A) : M A :=
  match body with
  | (t, Raise err) => let '(t', r) := handler err in (t ++ t', r)
  | other => other
  end.

Definition trace {A} (m : M A) : list event := fst m.
Definition outcome {A} (m : M A) : result A := snd m.

(** Status the process leaves with after [sys.exit(code)]: the interpreter
    converts the code to a C [long] (a code that does not fit gives -1),
    and the operating system keeps the low eight bits. *)
Definition process_status (code : Z) : Z :=
  if (- 2 ^ 63 <=? code) && (code <? 2 ^ 63) then code mod 256 else 255.

(** Exit status of the interpreter: 0 when the script runs to its end, the
    status of the [SystemExit] code, 1 after an uncaught exception (whose
    traceback the interpreter prints). *)
Definition exit_status {A} (m : M A) : Z :=
  match outcome m with
  | Ret _ => 0
  | SysExit code => process_status code
  | Raise _ => 1
  end.

Declare Scope py_scope.
Delimit Scope py_scope with py.
Notation "x <- m ;; k" := (bind m (fun x => k))
  (at level 100, m at next level, right associativity) : py_scope.
Notation "m ;; k" := (bind m (fun _ => k))
  (at level 100, right associativity) : py_scope.

(** [int(v)] *)
Definition type_error (msg : string) : exception :=
  Exception (Foreign "TypeError") ∅ msg.

Definition int_of_None_error : exception :=
  type_error "int() argument must be a string, a bytes-like object or a real number, not 'NoneType'".

Definition py_int (v : value) : M Z :=
  match v with
  | VNone => raise int_of_None_error
  | VBool b => ret (if b then 1 else 0)
  | VInt n => ret n
  | VObj (inl n) _ => ret n
  | VObj (inr exc_name) _ => raise (Exception (Foreign exc_name) ∅ "int() conversion failed")
  end.

End Py.

(* ===================================================================== *)
(** ** examples/typer/cli-app-typer.py                                    *)
(* ===================================================================== *)

Module TyperApp.
Import Py.
Local Open Scope py_scope.

Definition app_version : string := "0.1.0".

(** [class MyApp] *)
Record MyApp := { path : string }.

Definition MyApp_hello (self : MyApp) : M unit :=
  emit (Print ("Hello World: " +:+ path self)).

Definition MyApp_world (self : MyApp) : M unit :=
  emit (Print "Hello World World World").

Definition MyApp_fail (self : MyApp) : M unit :=
  raise (Exception MyAppException ∅ "This failure does not create python tracebacks").

(** [class OutputFormat(str, Enum)] *)
Inductive OutputFormat := yaml | json | toml.

Definition OutputFormat_value (f : OutputFormat) : string :=
  match f with
  | yaml => "yaml"
  | json => "json"
  | toml => "toml"
  end.

Definition OutputFormat_members : list OutputFormat := [yaml; json; toml].

(** [OutputFormat(s)]: the member whose value is [s], if any. *)
Definition OutputFormat_of_value (s : string) : option OutputFormat :=
  find (fun f => String.eqb (OutputFormat_value f) s) OutputFormat_members.

(** [typer.Context]: only [ctx.obj] is used, [None] until [main] fills it. *)
Record context := { obj : option (gmap string MyApp) }.

(** [ctx.obj[key]] *)
Definition obj_getitem (ctx : context) (key : string) : M MyApp :=
  match obj ctx with
  | None => raise (type_error "'NoneType' object is not subscriptable")
  | Some d =>
      match d !! key with
      | Some v => ret v
      | None => raise (Exception (Foreign "KeyError") ∅ key)
      end
  end.

(** The threshold computed in [main] from the count of [-v]. *)
Definition main_loglevel (verbose : Z) : Z :=
  let verbose := 30 - (verbose * 10) in
  if 10 <? verbose then verbose else DEBUG.

(** The callback [main(ctx, verbose, working_dir, version)]. *)
Definition main (ctx : context) (verbose : Z) (working_dir : string)
    (version : bool) : M context :=
  let logger := if 3 <=? verbose then RootLogger else PackageLogger in
  let verbose := main_loglevel verbose in
  emit (SetLevel logger verbose) ;;
  if version then
    emit (Print app_version) ;;
    ret ctx
  else
    ret {| obj := Some {[ "myapp" := {| path := working_dir |} ]} |}.

(** [cli_help] *)
Definition cli_help (ctx : context) : M unit :=
  emit PrintHelp.

(** [cli_logging] *)
Definition cli_logging : M unit :=
  emit (Log CRITICAL (MsgStr "SHOW CRITICAL")) ;;
  emit (Log ERROR (MsgStr "SHOW ERROR")) ;;
  emit (Log WARNING (MsgStr "SHOW WARNING")) ;;
  emit (Log INFO (MsgStr "SHOW INFO")).

Definition str_of_optional (o : option string) : string :=
  match o with
  | Some s => s
  | None => "None"
  end.

(** [cli_command1(ctx, mode, format, target)] *)
Definition cli_command1 (ctx : context) (mode : option string)
    (format : OutputFormat) (target : option string) : M unit :=
  myapp <- obj_getitem ctx "myapp" ;;
  emit (PrintObj
          "Run {myapp} with '{target}' as target in mode '{mode}' in format '{format}'"
          [path myapp; str_of_optional target; str_of_optional mode;
           OutputFormat_value format]) ;;
  emit (Print "This is a dump of our cli context:") ;;
  emit (PrintObj "pprint(ctx.__dict__)" []) ;;
  emit (Print "Run MyApp") ;;
  MyApp_hello myapp ;;
  MyApp_world myapp.

(** The [group1] sub-application. *)
Definition src_callback : M unit :=
  emit (Print "Executed before all source commands").

Definition src_ls : M unit := emit (Print "List sources").
Definition src_install : M unit := emit (Print "Install a source").
Definition src_update : M unit := emit (Print "Update sources").

(** The tuple [user_errors] of [clean_terminate]. *)
Definition user_errors : list exc_class :=
  [PermissionError; FileExistsError; FileNotFoundError; InterruptedError;
   IsADirectoryError; NotADirectoryError; TimeoutError]
  ++ [MyAppException].

(** [clean_terminate(err)] *)
Definition clean_terminate (err : exception) : M unit :=
  (if isinstance err user_errors then
     rc <- py_int (getattr err "rc" (getattr err "errno" (VInt 1))) ;;
     let advice := getattr err "advice" VNone in
     (if truthy advice then emit (Log WARNING (MsgValue advice)) else ret tt) ;;
     emit (Log ERROR (MsgExc err)) ;;
     let err_name := class_name (exc_class_of err) in
     emit (Log CRITICAL (MsgFmt "MyApp exited with error %s (%s)"
                                [ArgStr err_name; ArgInt rc])) ;;
     sys_exit rc
   else ret tt) ;;
  let rc := 255 in
  emit (Log ERROR (MsgTraceback err)) ;;
  emit (Log CRITICAL (MsgFmt "Uncatched error: %s" [ArgClass (exc_class_of err)])) ;;
  emit (Log CRITICAL (MsgStr "This is a bug, please report it.")) ;;
  sys_exit rc.

(** Names for two parts of [clean_terminate], used in the statements: the
    exit code it derives for a user-facing error, *)
Definition derived_rc (err : exception) : M Z :=
  py_int (getattr err "rc" (getattr err "errno" (VInt 1))).

(** and the advisory line, logged when [err.advice] is set and true. *)
Definition advisory (err : exception) : list event :=
  let advice := getattr err "advice" VNone in
  if truthy advice then [Log WARNING (MsgValue advice)] else [].

(** [cli_run()], for any behaviour of the call [cli_app()]. *)
Definition cli_run (cli_app : M unit) : M unit :=
  try_except cli_app clean_terminate.

(** *** What [cli_app()] does

    The call [cli_app()] runs the Typer library over the declarations of
    the script.  The library is not part of the repository; the
    definitions below follow its documented behaviour for the declared
    application and are marked where they follow the specification. *)

Inductive group1_command := SrcLs | SrcInstall | SrcUpdate.

(** A selected command with the option values as typed on the command line
    (the declared defaults where they were left out). *)
Inductive command :=
| CmdHelp
| CmdLogging
| CmdCommand1 (mode : option string) (format : string) (target : option string)
| CmdGroup1 (sub : group1_command).

(** The command line, already split into the declared global options and
    the command. *)
Record invocation := {
  inv_verbose : Z;              (* how many times -v / --verbose occurs *)
  inv_config : option string;   (* value of -c / --config, if given *)
  inv_version : bool;           (* --version / -V *)
  inv_command : option command;
}.

(** Exit status of a usage error (argparse's [parser.error] and Click's
    [UsageError] both use 2). *)
Definition usage_exit_code : Z := 2.

(** Modelled from the spec: the failure of the library's parser, which is
    outside the sources.  "Parse failure (unknown flag, invalid choice, wrong
    arity) is fatal and reports a usage message to the error stream with a
    non-zero exit code, terminating before any handler runs." *)
Definition usage_error {A} (msg : string) : M A :=
  bind (emit (UsageError msg)) (fun _ => sys_exit usage_exit_code).

(** Modelled from the spec: the text the library takes for an option
    declared with an environment variable and a default (the resolution is
    outside the sources).  "one variable supplies a default for the
    configuration-path flag when unset on the command line".  As the library
    does, a variable set to the empty string is passed over. *)
Definition option_value (cli : option string) (envvar : string)
    (default : string) (environ : gmap string string) : string :=
  match cli with
  | Some v => v
  | None =>
      match environ !! envvar with
      | Some v => if String.eqb v "" then default else v
      | None => default
      end
  end.

(** [working_dir] is declared [working_dir: Path]: the callback receives
    [pathlib.Path(text)], which [MyApp] stores and [hello] formats.  A path
    object is represented by its [str()], computed as [pathlib] does on a
    POSIX system: the text is split at [/], empty and [.] components are
    dropped, a leading [/] is kept (two leading slashes are kept as two,
    any other number as one), and the empty path is [.]. *)
Fixpoint split_slash (s : string) : list string :=
  match s with
  | EmptyString => [EmptyString]
  | String c rest =>
      if Ascii.eqb c "/"%char then EmptyString :: split_slash rest
      else match split_slash rest with
           | x :: xs => String c x :: xs
           | [] => [String c EmptyString]
           end
  end.

Fixpoint leading_slashes (s : string) : nat :=
  match s with
  | String c rest => if Ascii.eqb c "/"%char then S (leading_slashes rest) else O
  | EmptyString => O
  end.

Definition path_root (s : string) : string :=
  match leading_slashes s with
  | O => ""
  | 2%nat => "//"
  | _ => "/"
  end.

Definition path_parts (s : string) : list string :=
  List.filter (fun x => negb (String.eqb x "" || String.eqb x "."))
              (split_slash s).

(** [str(Path(text))] *)
Definition Path (text : string) : string :=
  let root := path_root text in
  let parts := path_parts text in
  if String.eqb root "" then
    match parts with
    | [] => "."
    | _ => String.concat "/" parts
    end
  else root +:+ String.concat "/" parts.

(** The declaration of [working_dir] in [main]. *)
Definition working_dir_default : string := ".".
Definition working_dir_envvar : string := "MYAPP_PROJECT_DIR".

(** [typer.Typer(..., invoke_without_command=True, no_args_is_help=True)] *)
Definition invoke_without_command : bool := true.
Definition no_args_is_help : bool := true.

(** No token at all on the command line. *)
Definition no_args (inv : invocation) : bool :=
  match inv_config inv, inv_command inv with
  | None, None => (inv_verbose inv =? 0) && negb (inv_version inv)
  | _, _ => false
  end.

(** Running the selected command: Typer builds the arguments of the
    handler (the restricted-choice option [format] is converted to an
    [OutputFormat] member, or parsing fails) and calls it; for [group1] the
    group's callback runs before its command. *)
Definition run_command (ctx : context) (c : command) : M unit :=
  match c with
  | CmdHelp => cli_help ctx
  | CmdLogging => cli_logging
  | CmdCommand1 mode format target =>
      match OutputFormat_of_value format with
      | Some f => cli_command1 ctx mode f target
      | None => usage_error ("Invalid value for '--format': " +:+ format)
      end
  | CmdGroup1 sub =>
      src_callback ;;
      match sub with
      | SrcLs => src_ls
      | SrcInstall => src_install
      | SrcUpdate => src_update
      end
  end.

(** [cli_app()].  With no argument the library prints the help and exits
    with its own status for that case ([no_args_status]).  Otherwise the
    global options are checked ([verbose] is declared with [min=0, max=3]),
    the callback [main] runs, then the selected command if there is one; a
    context created for a command inherits [ctx.obj] from its parent; the
    value returned by a callback is discarded; a run that raises nothing
    ends in [sys.exit(0)]. *)
Definition cli_app (no_args_status : Z) (environ : gmap string string)
    (inv : invocation) : M unit :=
  if no_args_is_help && no_args inv then
    emit PrintHelp ;;
    sys_exit no_args_status
  else if negb ((0 <=? inv_verbose inv) && (inv_verbose inv <=? 3)) then
    usage_error "Invalid value for '--verbose' / '-v'"
  else
    let working_dir :=
      Path (option_value (inv_config inv) working_dir_envvar working_dir_default
              environ) in
    ctx <- main {| obj := None |} (inv_verbose inv) working_dir (inv_version inv) ;;
    match inv_command inv with
    | Some c => run_command ctx c ;; sys_exit 0
    | None => sys_exit 0
    end.

(** The script as a whole: [cli_run()] under [if __name__ == "__main__"]. *)
Definition script (no_args_status : Z) (environ : gmap string string)
    (inv : invocation) : M unit :=
  cli_run (cli_app no_args_status environ inv).

(** *** The root logger

    The module-level [logger = logging.getLogger()] is the root logger;
    [cli_logging] and [clean_terminate] write to it.  [logging.basicConfig]
    is called without a level, which leaves the root logger at the
    library's initial WARNING, and the handler it installs lets every record
    through.  [main] moves that threshold only when its [setLevel] is applied
    to the root logger: for [verbose >= 3], or when [__package__] is [None]
    or empty (the file run as a script) or is the root logger's own name,
    [root], since [logging.getLogger] then returns the root logger. *)
Definition package_is_root (package : option string) : bool :=
  match package with
  | None => true
  | Some name => String.eqb name "" || String.eqb name "root"
  end.

Definition root_level_after (package : option string) (root : Z) (e : event) : Z :=
  match e with
  | SetLevel RootLogger lvl => lvl
  | SetLevel PackageLogger lvl => if package_is_root package then lvl else root
  | _ => root
  end.

(** The level given to a logger in a run: that of its first [setLevel],
    if there is one. *)
Fixpoint threshold_set (t : list event) : option Z :=
  match t with
  | [] => None
  | SetLevel _ lvl :: _ => Some lvl
  | _ :: t' => threshold_set t'
  end.

(** The records of a run that the root logger lets through, given the
    value of [__package__] and the threshold the root logger starts with. *)
Fixpoint shown (package : option string) (root : Z) (t : list event)
    : list event :=
  match t with
  | [] => []
  | Log lvl m :: t' =>
      if root <=? lvl then Log lvl m :: shown package root t'
      else shown package root t'
  | e :: t' => shown package (root_level_after package root e) t'
  end.

End TyperApp.

(* ===================================================================== *)
(** ** examples/argparse/cli-app-argparse.py                              *)
(* ===================================================================== *)

Module ArgparseApp.
Import Py.
Local Open Scope py_scope.

(** Attributes that the sub-parsers add to the namespace. *)
Inductive sub_args :=
| DemoArgs (env : string) (choice : option string) (store : bool)
           (appended : option (list string)) (nargs : list string)
| Subcommand2Args (name : string).

(** [self.args], the namespace returned by [parser.parse_args()].  (The
    positional [help] counter is never read and is left out.) *)
Record Namespace := {
  verbose : Z;
  command : option string;
  sub : option sub_args;
}.

(** Handlers attached to a logger, with their own level. *)
Inductive handler :=
| StreamHandler (lvl : Z)
| FileHandler (file : string) (lvl : Z).

Record logger := {
  lg_name : string;
  lg_level : Z;
  lg_handlers : list handler;
}.

Record CmdApp := {
  args : Namespace;
  log : logger;
  loglevel : Z;
}.

(** The command line, split along the declared schema: the count of [-v]
    and, per sub-parser, what was typed for each of its arguments. *)
Inductive sub_invocation :=
| InvDemo (env : option string) (choice : option string) (store : bool)
          (appended : list string) (nargs : list string)
| InvSubcommand2 (name : string).

Record invocation := {
  inv_verbose : Z;
  inv_sub : option sub_invocation;
}.

(** [choices=["choice1", "choice2"]] of [--choice]. *)
Definition choice_choices : list string := ["choice1"; "choice2"].

(** [default=os.environ.get("APP_SETTING", "Unset")] of [--env]. *)
Definition env_default (environ : gmap string string) : string :=
  match environ !! "APP_SETTING" with
  | Some v => v
  | None => "Unset"
  end.

(** Modelled from the spec: the failure of [parser.parse_args()], which
    belongs to the argparse library.  "Parse failure (unknown flag, invalid
    choice, wrong arity) is fatal and reports a usage message to the error
    stream with a non-zero exit code, terminating before any handler runs."
    (argparse exits with status 2.) *)
Definition parser_error {A} (msg : string) : M A :=
  bind (emit (UsageError msg)) (fun _ => sys_exit 2).

(** Modelled from the spec: what [parser.parse_args()] stores for the
    schema declared in [get_args]: an argument left out takes its declared
    default, a value typed on the command line replaces that default, a
    value of [--choice] outside its choices is a parse failure. *)
Definition parse_args (environ : gmap string string) (inv : invocation)
    : M Namespace :=
  match inv_sub inv with
  | None =>
      ret {| verbose := inv_verbose inv; command := None; sub := None |}
  | Some (InvDemo env choice store appended nargs) =>
      match choice with
      | Some c =>
          if bool_decide (c ∈ choice_choices) then ret tt
          else parser_error ("argument --choice: invalid choice: " +:+ c)
      | None => ret tt
      end ;;
      ret {| verbose := inv_verbose inv;
             command := Some "demo";
             sub := Some (DemoArgs
                            (match env with
                             | Some v => v
                             | None => env_default environ
                             end)
                            choice store
                            (match appended with
                             | [] => None
                             | _ => Some appended
                             end)
                            nargs) |}
  | Some (InvSubcommand2 name) =>
      ret {| verbose := inv_verbose inv;
             command := Some "subcommand2";
             sub := Some (Subcommand2Args name) |}
  end.

(** [get_args(self)]: builds the parser and stores [parser.parse_args()]. *)
Definition get_args (environ : gmap string string) (inv : invocation)
    : M Namespace :=
  parse_args environ inv.

(** The dictionary of [get_logger]. *)
Definition loglevel_table : gmap Z Z :=
  {[ 0 := ERROR; 1 := WARN; 2 := INFO ]}.

(** [loglevel] of [get_logger]: the table entry, [DEBUG] on [KeyError]. *)
Definition get_loglevel (verbose : Z) : Z :=
  match loglevel_table !! verbose with
  | Some lvl => lvl
  | None => DEBUG
  end.

(** [__name__] of the script. *)
Definition module_name : string := "__main__".

(** [get_logger(self, logger_name=None, create_file=False, verbose=0)];
    [create_file] is [Some file] when it is a string.  Returns what the
    method stores in [self.log] and [self.loglevel]. *)
Definition get_logger (logger_name : option string)
    (create_file : option string) (verbose : Z) : logger * Z :=
  let logger_name :=
    match logger_name with
    | Some n => if String.eqb n "" then module_name else n
    | None => module_name
    end in
  let loglevel := get_loglevel verbose in
  let ch := StreamHandler DEBUG in
  let handlers :=
    match create_file with
    | Some file => [ch; FileHandler file DEBUG]
    | None => [ch]
    end in
  ({| lg_name := logger_name; lg_level := loglevel; lg_handlers := handlers |},
   loglevel).

(** [cli_demo(self)] *)
Definition cli_demo (self : CmdApp) : M unit :=
  emit (Log ERROR (MsgStr "Test Critical message")) ;;
  emit (Log WARNING (MsgStr "Test Warning message")) ;;
  emit (Log INFO (MsgStr "Test Info message")) ;;
  emit (Log DEBUG (MsgFmt "Command line vars: {vars(self.args)}" [])).

(** The attributes of a [CmdApp] instance whose name starts with [cli_]:
    the lookups [hasattr(self, method)] and [getattr(self, method)] of
    [cli] are only made with such names. *)
Definition cli_methods : gmap string (CmdApp -> M unit) :=
  {[ "cli_demo" := cli_demo ]}.

(** Truth value of [self.args.command]. *)
Definition command_given (c : option string) : option string :=
  match c with
  | Some s => if String.eqb s "" then None else Some s
  | None => None
  end.

(** [cli(self)] *)
Definition cli (self : CmdApp) : M unit :=
  match command_given (command (args self)) with
  | Some cmd =>
      let method := "cli_" +:+ cmd in
      match cli_methods !! method with
      | Some m => m self
      | None =>
          emit (Log ERROR (MsgStr ("Subcommand " +:+ cmd +:+ " does not exists.")))
      end
  | None =>
      emit (Log ERROR (MsgStr "Missing sub command")) ;;
      emit PrintHelp
  end.

(** [CmdApp()]: [__init__] runs [get_args], [get_logger], [cli]. *)
Definition CmdApp_init (environ : gmap string string) (inv : invocation)
    : M CmdApp :=
  a <- get_args environ inv ;;
  let '(lg, lvl) := get_logger None None (verbose a) in
  let self := {| args := a; log := lg; loglevel := lvl |} in
  cli self ;;
  ret self.

(** The script as a whole: [app = CmdApp()] under
    [if __name__ == "__main__"]. *)
Definition script (environ : gmap string string) (inv : invocation) : M CmdApp :=
  CmdApp_init environ inv.

(** A record passed to [self.log] reaches a handler when its severity is
    at least the logger's level and the handler's level. *)
Definition handler_level (h : handler) : Z :=
  match h with
  | StreamHandler lvl => lvl
  | FileHandler _ lvl => lvl
  end.

Definition emitted (lg : logger) (e : event) : bool :=
  match e with
  | Log lvl _ =>
      (lg_level lg <=? lvl)
      && existsb (fun h => handler_level h <=? lvl) (lg_handlers lg)
  | _ => true
  end.

End ArgparseApp.

(* ===================================================================== *)
(** ** Properties                                                         *)
(* ===================================================================== *)

Import Py.

(** Non-membership in a list of literals. *)
Ltac not_in_list :=
  let H := fresh "H" in
  intros H;
  repeat (apply elem_of_cons in H as [H | H]; [discriminate H |]);
  apply elem_of_nil in H; exact H.

(** *** The effect monad *)

Lemma bind_ret_l {A B} (a : A) (k : A -> M B) : bind (ret a) k = k a.
Proof. unfold bind, ret. destruct (k a) as [t r]. reflexivity. Qed.

(** *** Verbosity and logging threshold *)

Section Verbosity.

Lemma get_loglevel_spec (v : Z) :
  ArgparseApp.get_loglevel v =
    if decide (v = 0) then ERROR
    else if decide (v = 1) then WARN
    else if decide (v = 2) then INFO
    else DEBUG.
Proof.
  unfold ArgparseApp.get_loglevel, ArgparseApp.loglevel_table.
  repeat case_decide; subst; try reflexivity.
  rewrite !lookup_insert_ne by congruence.
  rewrite lookup_singleton_ne by congruence. reflexivity.
Qed.

Lemma main_loglevel_spec (v : Z) :
  TyperApp.main_loglevel v = if decide (v < 2) then 30 - v * 10 else DEBUG.
Proof.
  unfold TyperApp.main_loglevel.
  case_decide; destruct (Z.ltb_spec 10 (30 - v * 10)); try reflexivity; lia.
Qed.

Lemma get_logger_level (name file : option string) (v : Z) :
  ArgparseApp.lg_level (ArgparseApp.get_logger name file v).1
  = ArgparseApp.get_loglevel v.
Proof. reflexivity. Qed.

(** C3, as stated, fails on the Typer script: with no [-v] its callback
    sets the threshold to WARNING, not to error-and-above only. *)
Lemma typer_level_zero_is_warning :
  trace (TyperApp.main {| TyperApp.obj := None |} 0 "." false)
    = [SetLevel PackageLogger WARNING]
  /\ TyperApp.main_loglevel 0 <> ERROR.
Proof. split; [reflexivity | discriminate]. Qed.

(** C3 (amended): the argparse script sets its logger to ERROR, WARNING,
    INFO, DEBUG for 0, 1, 2, 3 repetitions of the verbosity flag; the Typer
    script starts one tier lower: WARNING, INFO, DEBUG, DEBUG, the first
    three on the package logger and the last on the root logger. *)
Theorem verbosity_tables :
  (forall name file : option string,
     map (fun v => ArgparseApp.lg_level (ArgparseApp.get_logger name file v).1)
         [0; 1; 2; 3]
     = [ERROR; WARNING; INFO; DEBUG])
  /\ (forall (ctx : TyperApp.context) (working_dir : string) (version : bool),
        map (fun v => head (trace (TyperApp.main ctx v working_dir version)))
            [0; 1; 2; 3]
        = [Some (SetLevel PackageLogger WARNING);
           Some (SetLevel PackageLogger INFO);
           Some (SetLevel PackageLogger DEBUG);
           Some (SetLevel RootLogger DEBUG)]).
Proof.
  split.
  - intros name file. reflexivity.
  - intros ctx working_dir version. destruct version; reflexivity.
Qed.

(** The two level computations: the level never rises when the count
    grows, never goes below DEBUG, and is DEBUG for every count of 3 or
    more. *)
Lemma loglevel_monotonic_clamp (a b : Z) :
  0 <= a -> a <= b ->
  (DEBUG <= ArgparseApp.get_loglevel b <= ArgparseApp.get_loglevel a
   /\ DEBUG <= TyperApp.main_loglevel b <= TyperApp.main_loglevel a)
  /\ (3 <= b ->
      ArgparseApp.get_loglevel b = DEBUG /\ TyperApp.main_loglevel b = DEBUG).
Proof.
  intros Ha Hab.
  rewrite !get_loglevel_spec, !main_loglevel_spec.
  unfold ERROR, WARN, WARNING, INFO, DEBUG.
  repeat case_decide; lia.
Qed.

End Verbosity.

(** *** Classification of escaping errors ([clean_terminate], [cli_run]) *)

Section ExitCodes.

Import TyperApp.

(** A derived class is a member of a builtin kind exactly when its base is. *)
Lemma is_os_error_Derived (name : string) (base : exc_class) :
  is_os_error (Derived name base) = is_os_error base.
Proof. reflexivity. Qed.

Lemma issubclass_Derived_MyAppException (name : string) (base : exc_class) :
  issubclass (Derived name base) MyAppException = issubclass base MyAppException.
Proof. reflexivity. Qed.

Lemma os_error_not_MyAppException (c : exc_class) :
  is_os_error c = true -> issubclass c MyAppException = false.
Proof.
  induction c as [| | | | | | | | name base IH | name]; try reflexivity; try discriminate.
  rewrite is_os_error_Derived, issubclass_Derived_MyAppException. exact IH.
Qed.

Lemma os_error_is_user_error (err : exception) :
  is_os_error (exc_class_of err) = true -> isinstance err user_errors = true.
Proof.
  intros H. unfold isinstance, user_errors.
  rewrite existsb_app. apply orb_true_iff. left. exact H.
Qed.

Lemma foreign_not_user_error (name : string) (attrs : gmap string value)
    (msg : string) :
  isinstance (Exception (Foreign name) attrs msg) user_errors = false.
Proof. reflexivity. Qed.

Lemma clean_terminate_user (err : exception) (rc : Z) :
  isinstance err user_errors = true ->
  derived_rc err = ret rc ->
  clean_terminate err =
    (advisory err ++
       [Log ERROR (MsgExc err);
        Log CRITICAL (MsgFmt "MyApp exited with error %s (%s)"
                        [ArgStr (class_name (exc_class_of err)); ArgInt rc])],
     SysExit rc).
Proof.
  intros Huser Hrc. unfold clean_terminate, derived_rc, advisory in *.
  rewrite Huser, Hrc, bind_ret_l.
  destruct (truthy (getattr err "advice" VNone)); reflexivity.
Qed.

Lemma clean_terminate_user_raises (err terr : exception) :
  isinstance err user_errors = true ->
  derived_rc err = raise terr ->
  clean_terminate err = raise terr.
Proof.
  intros Huser Hrc. unfold clean_terminate, derived_rc in *.
  rewrite Huser, Hrc. reflexivity.
Qed.

Lemma clean_terminate_unrecognised (err : exception) :
  isinstance err user_errors = false ->
  clean_terminate err =
    ([Log ERROR (MsgTraceback err);
      Log CRITICAL (MsgFmt "Uncatched error: %s" [ArgClass (exc_class_of err)]);
      Log CRITICAL (MsgStr "This is a bug, please report it.")],
     SysExit 255).
Proof. intros H. unfold clean_terminate. rewrite H. reflexivity. Qed.

Lemma cli_run_raise (pre : list event) (err : exception) :
  cli_run (pre, Raise err)
  = (pre ++ trace (clean_terminate err), outcome (clean_terminate err)).
Proof.
  unfold cli_run, try_except, trace, outcome.
  destruct (clean_terminate err); reflexivity.
Qed.

(** [int(...)] of the derived attribute either yields a code or raises; it
    performs no effect of its own. *)
Lemma derived_rc_cases (err : exception) :
  (exists rc, derived_rc err = ret rc) \/ (exists terr, derived_rc err = raise terr).
Proof.
  unfold derived_rc.
  destruct (getattr err "rc" (getattr err "errno" (VInt 1))) as [| b | n | [n | name] t];
    simpl; eauto.
Qed.

(** C1, at the failing input: a handler raises [FileNotFoundError("missing")],
    a member of the closed set built without an error number.  Nothing is
    logged and [cli_run] does not reach [sys.exit]: the [int(...)] of
    [err.errno], which is [None], raises TypeError out of the classifier. *)
Theorem user_error_without_errno_not_classified :
  let err := Exception FileNotFoundError ∅ "missing" in
  isinstance err user_errors = true
  /\ getattr err "rc" (getattr err "errno" (VInt 1)) = VNone
  /\ trace (cli_run (raise err)) = []
  /\ exists terr, outcome (cli_run (raise err)) = Raise terr
                  /\ exc_class_of terr = Foreign "TypeError".
Proof.
  cbv zeta. repeat split; try reflexivity.
  eexists. split; reflexivity.
Qed.

(** C10: for an error of one of the seven builtin kinds that carries no
    [rc] and whose [errno] is [None] (left unset, or set to [None]), the
    derivation of the exit code raises TypeError, and the classifier passes
    that exception on to the caller of [cli_run] instead of exiting. *)
Theorem errno_None_propagates_TypeError (pre : list event) (err : exception) :
  is_os_error (exc_class_of err) = true ->
  exc_attrs err !! "rc" = None ->
  (exc_attrs err !! "errno" = None \/ exc_attrs err !! "errno" = Some VNone) ->
  isinstance err user_errors = true
  /\ exists terr, cli_run (pre, Raise err) = (pre, Raise terr)
                  /\ exc_class_of terr = Foreign "TypeError".
Proof.
  intros Hos Hrc Herrno.
  pose proof (os_error_is_user_error err Hos) as Huser.
  split; [exact Huser |].
  assert (Hv : getattr err "rc" (getattr err "errno" (VInt 1)) = VNone).
  { unfold getattr at 1. rewrite Hrc.
    unfold class_attr. rewrite (os_error_not_MyAppException _ Hos). simpl.
    unfold getattr, class_attr. rewrite (os_error_not_MyAppException _ Hos), Hos.
    simpl. destruct Herrno as [-> | ->]; reflexivity. }
  exists int_of_None_error. split; [| reflexivity].
  rewrite cli_run_raise.
  rewrite (clean_terminate_user_raises err int_of_None_error Huser).
  - simpl. rewrite app_nil_r. reflexivity.
  - unfold derived_rc. rewrite Hv. reflexivity.
Qed.

Lemma errno_None_propagates_TypeError_witness :
  isinstance (Exception PermissionError {[ "errno" := VNone ]} "denied") user_errors = true
  /\ exists terr,
       cli_run ([Print "working"], Raise (Exception PermissionError {[ "errno" := VNone ]} "denied"))
       = ([Print "working"], Raise terr)
       /\ exc_class_of terr = Foreign "TypeError".
Proof.
  apply (errno_None_propagates_TypeError [Print "working"]
           (Exception PermissionError {[ "errno" := VNone ]} "denied")).
  - reflexivity.
  - reflexivity.
  - right. reflexivity.
Defined.

(** Whenever the exit code of a user-facing error can be derived, [cli_run]
    logs the advisory (if any) at WARNING, the error at ERROR, the summary
    naming class and code at CRITICAL, and exits with the derived code. *)
Theorem user_error_exit_code (pre : list event) (err : exception) (rc : Z) :
  isinstance err user_errors = true ->
  derived_rc err = ret rc ->
  cli_run (pre, Raise err) =
    (pre ++ advisory err ++
       [Log ERROR (MsgExc err);
        Log CRITICAL (MsgFmt "MyApp exited with error %s (%s)"
                        [ArgStr (class_name (exc_class_of err)); ArgInt rc])],
     SysExit rc).
Proof.
  intros Huser Hrc.
  rewrite cli_run_raise, (clean_terminate_user err rc Huser Hrc). reflexivity.
Qed.

Lemma user_error_exit_code_witness :
  cli_run ([], Raise (Exception FileExistsError
                        {[ "errno" := VInt 17; "advice" := VObj (inr "ValueError") true ]}
                        "exists")) =
    ([Log WARNING (MsgValue (VObj (inr "ValueError") true));
      Log ERROR (MsgExc (Exception FileExistsError
                           {[ "errno" := VInt 17; "advice" := VObj (inr "ValueError") true ]}
                           "exists"));
      Log CRITICAL (MsgFmt "MyApp exited with error %s (%s)"
                      [ArgStr "FileExistsError"; ArgInt 17])],
     SysExit 17).
Proof.
  exact (user_error_exit_code []
           (Exception FileExistsError
              {[ "errno" := VInt 17; "advice" := VObj (inr "ValueError") true ]}
              "exists") 17 eq_refl eq_refl).
Defined.

(** The application's own error exits with the [rc] of its class, 1, after
    the two log lines; [MyApp.fail] raises it. *)
Theorem MyAppException_exits_1 (pre : list event) (msg : string) :
  cli_run (pre, Raise (Exception MyAppException ∅ msg)) =
    (pre ++ [Log ERROR (MsgExc (Exception MyAppException ∅ msg));
             Log CRITICAL (MsgFmt "MyApp exited with error %s (%s)"
                             [ArgStr "MyAppException"; ArgInt 1])],
     SysExit 1).
Proof. reflexivity. Qed.

(** C2, as stated, fails in its parenthesis: a user-facing error whose [rc]
    is 255 leaves with the same code as an unrecognised one. *)
Lemma sentinel_shared_with_user_error :
  isinstance (Exception MyAppException {[ "rc" := VInt 255 ]} "quota") user_errors = true
  /\ isinstance (Exception (Foreign "KeyError") ∅ "quota") user_errors = false
  /\ exit_status (cli_run (raise (Exception MyAppException {[ "rc" := VInt 255 ]} "quota")))
     = exit_status (cli_run (raise (Exception (Foreign "KeyError") ∅ "quota"))).
Proof. repeat split. Qed.

(** C2 (amended): an error raised out of [cli_app()] whose class is outside
    the closed set makes [cli_run] log the traceback at ERROR, then
    "Uncatched error" with the class and "This is a bug, please report it."
    at CRITICAL, and exit with code 255, process status 255, whatever the
    class and its attributes.  That status is not kept apart from the
    user-facing ones: a user-facing error with derived code [rc] leaves with
    the same status exactly when [rc] is 255 modulo 256 or does not fit a C
    [long]. *)
Theorem unrecognised_error_exits_255 (pre : list event) (err uerr : exception)
    (rc : Z) :
  isinstance err user_errors = false ->
  isinstance uerr user_errors = true ->
  derived_rc uerr = ret rc ->
  cli_run (pre, Raise err) =
    (pre ++ [Log ERROR (MsgTraceback err);
             Log CRITICAL (MsgFmt "Uncatched error: %s" [ArgClass (exc_class_of err)]);
             Log CRITICAL (MsgStr "This is a bug, please report it.")],
     SysExit 255)
  /\ exit_status (cli_run (pre, Raise err)) = 255
  /\ (exit_status (cli_run (pre, Raise uerr)) = exit_status (cli_run (pre, Raise err))
      <-> rc mod 256 = 255 \/ rc < - 2 ^ 63 \/ 2 ^ 63 <= rc).
Proof.
  intros Herr Huser Hrc.
  rewrite !cli_run_raise.
  rewrite (clean_terminate_user uerr rc Huser Hrc).
  rewrite (clean_terminate_unrecognised err Herr).
  split; [reflexivity |]. split; [reflexivity |].
  unfold exit_status. cbn [outcome snd].
  change (process_status 255) with 255.
  unfold process_status.
  destruct (Z.leb_spec (- 2 ^ 63) rc), (Z.ltb_spec rc (2 ^ 63)); cbn [andb]; lia.
Qed.

Lemma unrecognised_error_exits_255_witness :
  cli_run ([Print "working"],
           Raise (Exception (Derived "ParserError" (Foreign "ValueError"))
                    {[ "rc" := VInt 3 ]} "bad yaml")) =
    ([Print "working";
      Log ERROR (MsgTraceback (Exception (Derived "ParserError" (Foreign "ValueError"))
                                 {[ "rc" := VInt 3 ]} "bad yaml"));
      Log CRITICAL (MsgFmt "Uncatched error: %s"
                      [ArgClass (Derived "ParserError" (Foreign "ValueError"))]);
      Log CRITICAL (MsgStr "This is a bug, please report it.")],
     SysExit 255)
  /\ exit_status
       (cli_run ([Print "working"],
                 Raise (Exception (Derived "ParserError" (Foreign "ValueError"))
                          {[ "rc" := VInt 3 ]} "bad yaml")))
     = 255
  /\ (exit_status
        (cli_run ([Print "working"],
                  Raise (Exception MyAppException {[ "rc" := VInt 511 ]} "failed")))
      = exit_status
          (cli_run ([Print "working"],
                    Raise (Exception (Derived "ParserError" (Foreign "ValueError"))
                             {[ "rc" := VInt 3 ]} "bad yaml")))
      <-> 511 mod 256 = 255 \/ 511 < - 2 ^ 63 \/ 2 ^ 63 <= 511).
Proof.
  exact (unrecognised_error_exits_255 [Print "working"]
           (Exception (Derived "ParserError" (Foreign "ValueError"))
              {[ "rc" := VInt 3 ]} "bad yaml")
           (Exception MyAppException {[ "rc" := VInt 511 ]} "failed") 511
           eq_refl eq_refl eq_refl).
Defined.

(** In every case [clean_terminate] ends by raising: it never returns to
    [cli_run]. *)
Lemma clean_terminate_never_returns (err : exception) :
  outcome (clean_terminate err) <> Ret tt.
Proof.
  destruct (isinstance err user_errors) eqn:Huser.
  - destruct (derived_rc_cases err) as [[rc Hrc] | [terr Hrc]].
    + rewrite (clean_terminate_user err rc Huser Hrc). discriminate.
    + rewrite (clean_terminate_user_raises err terr Huser Hrc). discriminate.
  - rewrite (clean_terminate_unrecognised err Huser). discriminate.
Qed.

End ExitCodes.

(** *** Dispatch in the argparse script *)

Section ArgparseDispatch.

Import ArgparseApp.

(** Only [demo] has a handler method. *)
Lemma cli_methods_lookup (cmd : string) :
  cmd <> "demo" -> cli_methods !! ("cli_" +:+ cmd) = None.
Proof.
  intros Hne. unfold cli_methods.
  apply lookup_singleton_ne. simpl. intros Heq. apply Hne.
  injection Heq as Heq. symmetry. exact Heq.
Qed.

Lemma cli_methods_demo : cli_methods !! ("cli_" +:+ "demo") = Some cli_demo.
Proof. reflexivity. Qed.

(** Every threshold that [get_logger] can choose lets ERROR records pass. *)
Lemma get_loglevel_le_ERROR (v : Z) : get_loglevel v <= ERROR.
Proof.
  rewrite get_loglevel_spec. unfold ERROR, WARN, WARNING, INFO, DEBUG.
  repeat case_decide; lia.
Qed.

Lemma error_record_emitted (name file : option string) (v : Z) (m : log_msg) :
  emitted (get_logger name file v).1 (Log ERROR m) = true.
Proof.
  unfold emitted. apply andb_true_iff. split.
  - rewrite get_logger_level. apply Z.leb_le. apply get_loglevel_le_ERROR.
  - unfold get_logger. destruct file; reflexivity.
Qed.

(** The constructor after a successful parse. *)
Lemma CmdApp_init_parsed (environ : gmap string string) (inv : invocation)
    (a : Namespace) :
  get_args environ inv = ret a ->
  let self := {| args := a;
                 log := (get_logger None None (verbose a)).1;
                 loglevel := (get_logger None None (verbose a)).2 |} in
  script environ inv = (trace (cli self), 
                        match outcome (cli self) with
                        | Ret _ => Ret self
                        | Raise err => Raise err
                        | SysExit code => SysExit code
                        end).
Proof.
  intros Hparse. unfold script, CmdApp_init. rewrite Hparse, bind_ret_l.
  cbn zeta. simpl.
  destruct (cli _) as [t [[] | err | code]]; simpl; rewrite ?app_nil_r; reflexivity.
Qed.

(** C5, as stated, fails: [subcommand2] is accepted by the parser and has
    no handler method; the script logs the error and ends with status 0. *)
Lemma unknown_command_exits_zero :
  trace (script ∅ {| inv_verbose := 0; inv_sub := Some (InvSubcommand2 "x") |})
    = [Log ERROR (MsgStr "Subcommand subcommand2 does not exists.")]
  /\ exit_status (script ∅ {| inv_verbose := 0; inv_sub := Some (InvSubcommand2 "x") |})
     = 0.
Proof. split; reflexivity. Qed.

(** C5 (amended): when the parsed command name has no handler method, the
    script does nothing but log, at ERROR, a message naming that command
    (a record that passes the logger's threshold at every verbosity); no
    handler runs, and the script then ends normally, with exit status 0. *)
Theorem unknown_command_logged (environ : gmap string string) (inv : invocation)
    (a : Namespace) (cmd : string) :
  get_args environ inv = ret a ->
  command_given (command a) = Some cmd ->
  cmd <> "demo" ->
  trace (script environ inv)
    = [Log ERROR (MsgStr ("Subcommand " +:+ cmd +:+ " does not exists."))]
  /\ forallb (emitted (get_logger None None (verbose a)).1)
             (trace (script environ inv)) = true
  /\ (exists self, outcome (script environ inv) = Ret self)
  /\ exit_status (script environ inv) = 0.
Proof.
  intros Hparse Hcmd Hne.
  pose proof (CmdApp_init_parsed environ inv a Hparse) as Hrun. cbn zeta in Hrun.
  unfold cli in Hrun. cbn [args] in Hrun.
  rewrite Hcmd, (cli_methods_lookup cmd Hne) in Hrun.
  unfold exit_status. rewrite Hrun. cbn [trace outcome emit fst snd].
  split; [reflexivity |]. split.
  - cbn [forallb]. rewrite error_record_emitted. reflexivity.
  - split; [eexists; reflexivity | reflexivity].
Qed.

Lemma unknown_command_logged_witness :
  trace (script {[ "APP_SETTING" := "prod" ]}
           {| inv_verbose := 2; inv_sub := Some (InvSubcommand2 "web") |})
    = [Log ERROR (MsgStr ("Subcommand " +:+ "subcommand2" +:+ " does not exists."))]
  /\ forallb (emitted (get_logger None None 2).1)
             (trace (script {[ "APP_SETTING" := "prod" ]}
                       {| inv_verbose := 2; inv_sub := Some (InvSubcommand2 "web") |}))
     = true
  /\ (exists self,
        outcome (script {[ "APP_SETTING" := "prod" ]}
                   {| inv_verbose := 2; inv_sub := Some (InvSubcommand2 "web") |})
        = Ret self)
  /\ exit_status (script {[ "APP_SETTING" := "prod" ]}
                    {| inv_verbose := 2; inv_sub := Some (InvSubcommand2 "web") |})
     = 0.
Proof.
  apply (unknown_command_logged {[ "APP_SETTING" := "prod" ]}
           {| inv_verbose := 2; inv_sub := Some (InvSubcommand2 "web") |}
           {| verbose := 2; command := Some "subcommand2";
              sub := Some (Subcommand2Args "web") |}
           "subcommand2").
  - reflexivity.
  - reflexivity.
  - discriminate.
Defined.

(** The registered command does reach its handler. *)
Lemma demo_command_runs_handler (environ : gmap string string) (inv : invocation)
    (a : Namespace) :
  get_args environ inv = ret a ->
  command_given (command a) = Some "demo" ->
  trace (script environ inv)
    = [Log ERROR (MsgStr "Test Critical message");
       Log WARNING (MsgStr "Test Warning message");
       Log INFO (MsgStr "Test Info message");
       Log DEBUG (MsgFmt "Command line vars: {vars(self.args)}" [])].
Proof.
  intros Hparse Hcmd.
  pose proof (CmdApp_init_parsed environ inv a Hparse) as Hrun. cbn zeta in Hrun.
  unfold cli in Hrun. cbn [args] in Hrun.
  rewrite Hcmd, cli_methods_demo in Hrun. rewrite Hrun. reflexivity.
Qed.

End ArgparseDispatch.

(** *** Dispatch in the Typer script *)

Section TyperDispatch.

Import TyperApp.

Variable no_args_status : Z.
Variable environ : gmap string string.

Lemma trace_main (ctx : context) (v : Z) (working_dir : string) (version : bool) :
  trace (main ctx v working_dir version)
  = SetLevel (if 3 <=? v then RootLogger else PackageLogger) (main_loglevel v)
    :: (if version then [Print app_version] else []).
Proof. unfold main. destruct version; reflexivity. Qed.

Lemma outcome_main (ctx : context) (v : Z) (working_dir : string) (version : bool) :
  outcome (main ctx v working_dir version)
  = Ret (if version then ctx
         else {| obj := Some {[ "myapp" := {| path := working_dir |} ]} |}).
Proof. unfold main. destruct version; reflexivity. Qed.

(** With the version flag the callback returns without filling [ctx.obj]. *)
Lemma main_version_leaves_obj (ctx : context) (v : Z) (working_dir : string) :
  outcome (main ctx v working_dir true) = Ret ctx.
Proof. apply outcome_main. Qed.

Lemma cli_app_dispatch (inv : invocation) :
  no_args inv = false ->
  0 <= inv_verbose inv <= 3 ->
  cli_app no_args_status environ inv
  = bind (main {| obj := None |} (inv_verbose inv)
            (Path (option_value (inv_config inv) working_dir_envvar
                     working_dir_default environ))
            (inv_version inv))
         (fun ctx =>
            match inv_command inv with
            | Some c => bind (run_command ctx c) (fun _ => sys_exit 0)
            | None => sys_exit 0
            end).
Proof.
  intros Hargs [Hlo Hhi]. unfold cli_app. rewrite Hargs.
  apply Z.leb_le in Hlo, Hhi. rewrite Hlo, Hhi. reflexivity.
Qed.

Lemma no_args_version (inv : invocation) :
  inv_version inv = true -> no_args inv = false.
Proof.
  intros H. unfold no_args. rewrite H.
  destruct (inv_config inv), (inv_command inv); try reflexivity.
  apply andb_false_r.
Qed.

Lemma no_args_command (inv : invocation) (c : command) :
  inv_command inv = Some c -> no_args inv = false.
Proof.
  intros H. unfold no_args. rewrite H. destruct (inv_config inv); reflexivity.
Qed.

(** The version flag alone: the threshold is set, the version is printed
    and the exit status is 0; the callback hands on the context it was
    given, with [ctx.obj] still [None]: the application object is not
    created. *)
Theorem version_alone_exits_0 (v : Z) (config : option string) :
  0 <= v <= 3 ->
  script no_args_status environ
    {| inv_verbose := v; inv_config := config; inv_version := true;
       inv_command := None |}
  = ([SetLevel (if 3 <=? v then RootLogger else PackageLogger) (main_loglevel v);
      Print app_version],
     SysExit 0)
  /\ outcome (main {| obj := None |} v
                (Path (option_value config working_dir_envvar working_dir_default
                         environ))
                true)
     = Ret {| obj := None |}.
Proof.
  intros Hv. split.
  - unfold script. rewrite cli_app_dispatch; [| by apply no_args_version | exact Hv].
    cbn [inv_verbose inv_config inv_version inv_command].
    unfold main, cli_run. reflexivity.
  - reflexivity.
Qed.

(** C6, at the failing input [--version command1]: the callback prints the
    version and returns, Typer goes on to [command1], whose [ctx.obj["myapp"]]
    fails on the [None] left in [ctx.obj]; the TypeError is classified as an
    internal error and the script exits with 255.  With [--version logging]
    the handler runs after the version is printed. *)
Theorem version_flag_does_not_stop_command :
  script no_args_status environ
    {| inv_verbose := 0; inv_config := None; inv_version := true;
       inv_command := Some (CmdCommand1 (Some "Default Mode") "yaml" None) |}
  = ([SetLevel PackageLogger WARNING;
      Print app_version;
      Log ERROR (MsgTraceback (type_error "'NoneType' object is not subscriptable"));
      Log CRITICAL (MsgFmt "Uncatched error: %s" [ArgClass (Foreign "TypeError")]);
      Log CRITICAL (MsgStr "This is a bug, please report it.")],
     SysExit 255)
  /\ script no_args_status environ
       {| inv_verbose := 0; inv_config := None; inv_version := true;
          inv_command := Some CmdLogging |}
     = ([SetLevel PackageLogger WARNING;
         Print app_version;
         Log CRITICAL (MsgStr "SHOW CRITICAL");
         Log ERROR (MsgStr "SHOW ERROR");
         Log WARNING (MsgStr "SHOW WARNING");
         Log INFO (MsgStr "SHOW INFO")],
        SysExit 0).
Proof. split; reflexivity. Qed.

(** With the version flag, [command1] fails in the same way for every
    verbosity, configuration path and option value. *)
Lemma version_then_command1 (v : Z) (config mode target : option string)
    (format : string) (f : OutputFormat) :
  0 <= v <= 3 ->
  OutputFormat_of_value format = Some f ->
  exit_status
    (script no_args_status environ
       {| inv_verbose := v; inv_config := config; inv_version := true;
          inv_command := Some (CmdCommand1 mode format target) |})
  = 255.
Proof.
  intros Hv Hf. unfold script. rewrite cli_app_dispatch; [| by apply no_args_version | exact Hv].
  cbn [inv_verbose inv_config inv_version inv_command].
  unfold main, run_command. rewrite Hf. reflexivity.
Qed.

(** Without the version flag, [command1] finds the application object
    built on the resolved configuration path. *)
Lemma command1_run (v : Z) (config mode target : option string)
    (format : string) (f : OutputFormat) :
  0 <= v <= 3 ->
  OutputFormat_of_value format = Some f ->
  let working_dir :=
    Path (option_value config working_dir_envvar working_dir_default environ) in
  script no_args_status environ
    {| inv_verbose := v; inv_config := config; inv_version := false;
       inv_command := Some (CmdCommand1 mode format target) |}
  = ([SetLevel (if 3 <=? v then RootLogger else PackageLogger) (main_loglevel v);
      PrintObj
        "Run {myapp} with '{target}' as target in mode '{mode}' in format '{format}'"
        [working_dir; str_of_optional target; str_of_optional mode;
         OutputFormat_value f];
      Print "This is a dump of our cli context:";
      PrintObj "pprint(ctx.__dict__)" [];
      Print "Run MyApp";
      Print ("Hello World: " +:+ working_dir);
      Print "Hello World World World"],
     SysExit 0).
Proof.
  intros Hv Hf working_dir. unfold script.
  rewrite cli_app_dispatch; [| by eapply no_args_command | exact Hv].
  cbn [inv_verbose inv_config inv_version inv_command].
  fold working_dir. generalize working_dir as wd. intros wd.
  unfold main, run_command. rewrite Hf. reflexivity.
Qed.

End TyperDispatch.

Lemma version_alone_exits_0_witness :
  TyperApp.script 0 ∅
    {| TyperApp.inv_verbose := 3; TyperApp.inv_config := Some "/etc/myapp";
       TyperApp.inv_version := true; TyperApp.inv_command := None |}
  = ([SetLevel RootLogger DEBUG; Print TyperApp.app_version], SysExit 0)
  /\ outcome (TyperApp.main {| TyperApp.obj := None |} 3 "/etc/myapp" true)
     = Ret {| TyperApp.obj := None |}.
Proof. exact (version_alone_exits_0 0 ∅ 3 (Some "/etc/myapp") ltac:(lia)). Defined.

(** *** Parse failures, missing command and the configuration path *)

Section Parsing.

Lemma OutputFormat_of_value_None (s : string) :
  s ∉ map TyperApp.OutputFormat_value TyperApp.OutputFormat_members ->
  TyperApp.OutputFormat_of_value s = None.
Proof.
  intros Hnot. unfold TyperApp.OutputFormat_of_value, TyperApp.OutputFormat_members.
  cbn [find TyperApp.OutputFormat_value].
  repeat match goal with
         | |- context [String.eqb ?a s] =>
             destruct (String.eqb_spec a s) as [<- | _];
             [exfalso; apply Hnot; cbn; set_solver |]
         end.
  reflexivity.
Qed.

(** C7: a value of a restricted-choice option outside the set declared
    for that option is a parse failure.  In the argparse script ([--choice]
    of [demo], choices choice1 and choice2) the only effect of the run is
    the usage error and the exit status is 2: neither [get_logger] nor [cli]
    is reached.  In the Typer script ([--format] of [command1], the values
    of [OutputFormat]) the callback has run, then the usage error is
    reported and the exit status is 2: [cli_command1] is not called. *)
Theorem invalid_choice_is_fatal :
  (forall (c : string) (environ : gmap string string) (va : Z)
          (env : option string) (store : bool) (appended nargs : list string),
     c ∉ ArgparseApp.choice_choices ->
     let inv := {| ArgparseApp.inv_verbose := va;
                   ArgparseApp.inv_sub :=
                     Some (ArgparseApp.InvDemo env (Some c) store appended nargs) |} in
     ArgparseApp.script environ inv
     = ([UsageError ("argument --choice: invalid choice: " +:+ c)], SysExit 2)
     /\ exit_status (ArgparseApp.script environ inv) <> 0)
  /\ (forall (c : string) (vt status : Z) (environ : gmap string string)
             (config : option string) (version : bool)
             (mode target : option string),
        c ∉ map TyperApp.OutputFormat_value TyperApp.OutputFormat_members ->
        0 <= vt <= 3 ->
        let inv := {| TyperApp.inv_verbose := vt; TyperApp.inv_config := config;
                      TyperApp.inv_version := version;
                      TyperApp.inv_command :=
                        Some (TyperApp.CmdCommand1 mode c target) |} in
        TyperApp.script status environ inv
        = (SetLevel (if 3 <=? vt then RootLogger else PackageLogger)
                    (TyperApp.main_loglevel vt)
           :: (if version then [Print TyperApp.app_version] else [])
           ++ [UsageError ("Invalid value for '--format': " +:+ c)],
           SysExit 2)
        /\ exit_status (TyperApp.script status environ inv) <> 0).
Proof.
  split.
  - intros c environ va env store appended nargs Hchoice inv. subst inv.
    unfold ArgparseApp.script, ArgparseApp.CmdApp_init, ArgparseApp.get_args,
      ArgparseApp.parse_args.
    cbn [ArgparseApp.inv_sub].
    rewrite bool_decide_eq_false_2 by exact Hchoice.
    split; [reflexivity | discriminate].
  - intros c vt status environ config version mode target Hformat Hvt inv. subst inv.
    unfold TyperApp.script.
    rewrite cli_app_dispatch;
      [| by eapply no_args_command | exact Hvt].
    cbn [TyperApp.inv_verbose TyperApp.inv_config TyperApp.inv_version
         TyperApp.inv_command].
    unfold TyperApp.run_command.
    rewrite (OutputFormat_of_value_None c Hformat).
    unfold TyperApp.main. destruct version; (split; [reflexivity | discriminate]).
Qed.

Lemma invalid_choice_is_fatal_witness :
  ArgparseApp.script ∅
    {| ArgparseApp.inv_verbose := 1;
       ArgparseApp.inv_sub :=
         Some (ArgparseApp.InvDemo None (Some "yaml") false [] []) |}
  = ([UsageError ("argument --choice: invalid choice: " +:+ "yaml")], SysExit 2)
  /\ TyperApp.script 0 ∅
       {| TyperApp.inv_verbose := 1; TyperApp.inv_config := None;
          TyperApp.inv_version := false;
          TyperApp.inv_command := Some (TyperApp.CmdCommand1 None "choice1" None) |}
     = ([SetLevel PackageLogger INFO;
         UsageError ("Invalid value for '--format': " +:+ "choice1")],
        SysExit 2).
Proof.
  destruct invalid_choice_is_fatal as [Hargparse Htyper].
  split.
  - refine (proj1 (Hargparse "yaml" ∅ 1 None false [] [] _)).
    unfold ArgparseApp.choice_choices. not_in_list.
  - refine (proj1 (Htyper "choice1" 1 0 ∅ None false None None _ _)).
    + cbn. not_in_list.
    + lia.
Defined.

(** C8, as stated, fails on the argparse script: with no sub-command it
    prints the help and ends with status 0, not with a non-zero code. *)
Lemma missing_command_exits_zero :
  trace (ArgparseApp.script ∅
           {| ArgparseApp.inv_verbose := 0; ArgparseApp.inv_sub := None |})
    = [Log ERROR (MsgStr "Missing sub command"); PrintHelp]
  /\ exit_status (ArgparseApp.script ∅
                    {| ArgparseApp.inv_verbose := 0; ArgparseApp.inv_sub := None |})
     = 0.
Proof. split; reflexivity. Qed.

(** C8 (amended): with no sub-command the argparse script logs "Missing sub
    command" at ERROR, prints the parser's help and ends normally, with exit
    status 0, whatever the verbosity and environment; the Typer application,
    declared with [no_args_is_help], prints the help when it is given no
    argument and exits with the status its library uses for that case,
    without running the callback or any command. *)
Theorem missing_command_prints_help :
  (forall (environ : gmap string string) (v : Z),
     let run := ArgparseApp.script environ
                  {| ArgparseApp.inv_verbose := v; ArgparseApp.inv_sub := None |} in
     trace run = [Log ERROR (MsgStr "Missing sub command"); PrintHelp]
     /\ (exists self, outcome run = Ret self)
     /\ exit_status run = 0)
  /\ (forall (status : Z) (environ : gmap string string),
        TyperApp.script status environ
          {| TyperApp.inv_verbose := 0; TyperApp.inv_config := None;
             TyperApp.inv_version := false; TyperApp.inv_command := None |}
        = ([PrintHelp], SysExit status)).
Proof.
  split.
  - intros environ v run. subst run.
    repeat split; try reflexivity. eexists; reflexivity.
  - intros status environ. reflexivity.
Qed.

Lemma Path_empty_is_dot : TyperApp.Path "" = TyperApp.Path ".".
Proof. reflexivity. Qed.

(** The path built from the resolved text: passing over a variable set to
    the empty string changes nothing, the empty path being [.]. *)
Lemma Path_option_value (cli : option string) (envvar : string)
    (environ : gmap string string) :
  TyperApp.Path (TyperApp.option_value cli envvar "." environ)
  = TyperApp.Path match cli with
                  | Some v => v
                  | None =>
                      match environ !! envvar with
                      | Some v => v
                      | None => "."
                      end
                  end.
Proof.
  unfold TyperApp.option_value. destruct cli as [v |]; [reflexivity |].
  destruct (environ !! envvar) as [v |]; [| reflexivity].
  destruct (String.eqb_spec v "") as [-> | _]; reflexivity.
Qed.

(** C9: the configuration path.  In the Typer script the path handed to
    [MyApp], which [hello] prints, is the path of the text given with
    [-c]/[--config] when there is one, else of the value of
    MYAPP_PROJECT_DIR when that variable is set, else of ".".  In the
    argparse script the [env] attribute of the namespace is the value of
    [--env] when it is given, else the value of APP_SETTING when that
    variable is set, else "Unset". *)
Theorem config_path_resolution (environ : gmap string string)
    (cli : option string) :
  let resolve (envvar fallback : string) :=
    match cli with
    | Some v => v
    | None =>
        match environ !! envvar with
        | Some v => v
        | None => fallback
        end
    end in
  (forall (status v : Z) (mode target : option string) (format : string)
          (f : TyperApp.OutputFormat),
     0 <= v <= 3 ->
     TyperApp.OutputFormat_of_value format = Some f ->
     trace (TyperApp.script status environ
              {| TyperApp.inv_verbose := v; TyperApp.inv_config := cli;
                 TyperApp.inv_version := false;
                 TyperApp.inv_command :=
                   Some (TyperApp.CmdCommand1 mode format target) |})
       !! 5%nat
     = Some (Print ("Hello World: "
                    +:+ TyperApp.Path (resolve "MYAPP_PROJECT_DIR" "."))))
  /\ (forall (v : Z) (choice : option string) (store : bool)
             (appended nargs : list string),
        choice = None \/ choice = Some "choice1" \/ choice = Some "choice2" ->
        exists self,
          outcome (ArgparseApp.script environ
                     {| ArgparseApp.inv_verbose := v;
                        ArgparseApp.inv_sub :=
                          Some (ArgparseApp.InvDemo cli choice store appended nargs) |})
          = Ret self
          /\ exists ap,
               ArgparseApp.sub (ArgparseApp.args self)
               = Some (ArgparseApp.DemoArgs (resolve "APP_SETTING" "Unset")
                         choice store ap nargs)).
Proof.
  cbn zeta. split.
  - intros status v mode target format f Hv Hf.
    rewrite (command1_run status environ v cli mode target format f Hv Hf).
    cbn zeta. unfold TyperApp.working_dir_envvar, TyperApp.working_dir_default.
    rewrite Path_option_value. reflexivity.
  - intros v choice store appended nargs Hchoice.
    unfold ArgparseApp.script, ArgparseApp.CmdApp_init, ArgparseApp.get_args,
      ArgparseApp.parse_args, ArgparseApp.env_default.
    cbn [ArgparseApp.inv_sub ArgparseApp.inv_verbose].
    destruct Hchoice as [-> | [-> | ->]]; eexists; split; try reflexivity;
      eexists; reflexivity.
Qed.

Lemma config_path_resolution_witness :
  trace (TyperApp.script 0
           {[ "MYAPP_PROJECT_DIR" := "./conf/"; "APP_SETTING" := "prod" ]}
           {| TyperApp.inv_verbose := 1; TyperApp.inv_config := None;
              TyperApp.inv_version := false;
              TyperApp.inv_command := Some (TyperApp.CmdCommand1 None "yaml" None) |})
    !! 5%nat
  = Some (Print "Hello World: conf")
  /\ exists self,
       outcome (ArgparseApp.script
                  {[ "MYAPP_PROJECT_DIR" := "./conf/"; "APP_SETTING" := "prod" ]}
                  {| ArgparseApp.inv_verbose := 0;
                     ArgparseApp.inv_sub :=
                       Some (ArgparseApp.InvDemo None None false [] []) |})
       = Ret self
       /\ exists ap,
            ArgparseApp.sub (ArgparseApp.args self)
            = Some (ArgparseApp.DemoArgs "prod" None false ap []).
Proof.
  destruct (config_path_resolution
              {[ "MYAPP_PROJECT_DIR" := "./conf/"; "APP_SETTING" := "prod" ]} None)
    as [Htyper Hargparse].
  split.
  - exact (Htyper 0 1 None None "yaml" TyperApp.yaml ltac:(lia) eq_refl).
  - exact (Hargparse 0 None false [] [] (or_introl eq_refl)).
Defined.

End Parsing.

(** *** More on the classifier *)

Section Classifier.

Import TyperApp.

Lemma MyAppException_subclass_is_user_error (err : exception) :
  issubclass (exc_class_of err) MyAppException = true ->
  isinstance err user_errors = true.
Proof.
  intros H. unfold isinstance, user_errors.
  rewrite existsb_app. apply orb_true_iff. right.
  cbn [existsb]. rewrite H. reflexivity.
Qed.

(** [clean_terminate] ends in exactly one of three ways: [sys.exit(255)]
    for an error outside the closed set; [sys.exit(rc)] for a user-facing
    error whose code can be derived; and, for a user-facing error whose code
    cannot be converted by [int], the conversion error itself, raised before
    anything has been logged. *)
Theorem clean_terminate_outcomes (err : exception) :
  (isinstance err user_errors = false
   /\ outcome (clean_terminate err) = SysExit 255)
  \/ (isinstance err user_errors = true
      /\ exists rc, derived_rc err = ret rc
                    /\ outcome (clean_terminate err) = SysExit rc)
  \/ (isinstance err user_errors = true
      /\ exists terr, derived_rc err = raise terr
                      /\ clean_terminate err = ([], Raise terr)).
Proof.
  destruct (isinstance err user_errors) eqn:Huser.
  - right. destruct (derived_rc_cases err) as [[rc Hrc] | [terr Hrc]].
    + left. split; [reflexivity |]. exists rc. split; [exact Hrc |].
      rewrite (clean_terminate_user err rc Huser Hrc). reflexivity.
    + right. split; [reflexivity |]. exists terr. split; [exact Hrc |].
      exact (clean_terminate_user_raises err terr Huser Hrc).
  - left. split; [reflexivity |].
    rewrite (clean_terminate_unrecognised err Huser). reflexivity.
Qed.

(** An [rc] carried by a user-facing error decides the exit code, whatever
    its [errno] is. *)
Theorem rc_takes_precedence_over_errno (pre : list event) (err : exception)
    (n : Z) :
  isinstance err user_errors = true ->
  exc_attrs err !! "rc" = Some (VInt n) ->
  outcome (cli_run (pre, Raise err)) = SysExit n.
Proof.
  intros Huser Hrc.
  assert (Hd : derived_rc err = ret n).
  { unfold derived_rc, getattr at 1. rewrite Hrc. reflexivity. }
  rewrite cli_run_raise, (clean_terminate_user err n Huser Hd). reflexivity.
Qed.

Lemma rc_takes_precedence_over_errno_witness :
  outcome (cli_run ([], Raise (Exception PermissionError
                                 {[ "rc" := VInt 77; "errno" := VInt 13 ]}
                                 "denied")))
  = SysExit 77.
Proof.
  exact (rc_takes_precedence_over_errno []
           (Exception PermissionError {[ "rc" := VInt 77; "errno" := VInt 13 ]} "denied")
           77 eq_refl eq_refl).
Defined.

(** An error of one of the seven builtin kinds that carries an integer
    [errno] and no [rc] exits with that [errno]. *)
Theorem os_error_exits_with_errno (pre : list event) (err : exception) (n : Z) :
  is_os_error (exc_class_of err) = true ->
  exc_attrs err !! "rc" = None ->
  exc_attrs err !! "errno" = Some (VInt n) ->
  outcome (cli_run (pre, Raise err)) = SysExit n.
Proof.
  intros Hos Hrc Herrno.
  pose proof (os_error_is_user_error err Hos) as Huser.
  assert (Hd : derived_rc err = ret n).
  { unfold derived_rc, getattr, class_attr.
    rewrite Hrc, Herrno, (os_error_not_MyAppException _ Hos), Hos. reflexivity. }
  rewrite cli_run_raise, (clean_terminate_user err n Huser Hd). reflexivity.
Qed.

Lemma os_error_exits_with_errno_witness :
  outcome (cli_run ([], Raise (Exception (Derived "ConfigMissing" FileNotFoundError)
                                 {[ "errno" := VInt 2 ]} "no myapp.yml")))
  = SysExit 2.
Proof.
  exact (os_error_exits_with_errno []
           (Exception (Derived "ConfigMissing" FileNotFoundError)
              {[ "errno" := VInt 2 ]} "no myapp.yml")
           2 eq_refl eq_refl eq_refl).
Defined.

(** Every class derived from [MyAppException] inherits its [rc]: an
    instance without attributes of its own exits with 1, and the summary
    names the derived class. *)
Theorem MyAppException_subclass_exits_1 (pre : list event) (c : exc_class)
    (msg : string) :
  issubclass c MyAppException = true ->
  cli_run (pre, Raise (Exception c ∅ msg)) =
    (pre ++ [Log ERROR (MsgExc (Exception c ∅ msg));
             Log CRITICAL (MsgFmt "MyApp exited with error %s (%s)"
                             [ArgStr (class_name c); ArgInt 1])],
     SysExit 1).
Proof.
  intros Hsub.
  assert (Huser : isinstance (Exception c ∅ msg) user_errors = true)
    by (apply MyAppException_subclass_is_user_error; exact Hsub).
  assert (Hd : derived_rc (Exception c ∅ msg) = ret 1).
  { unfold derived_rc, getattr at 1. cbn [exc_attrs exc_class_of].
    rewrite lookup_empty. unfold class_attr. rewrite Hsub. reflexivity. }
  rewrite cli_run_raise, (clean_terminate_user _ 1 Huser Hd).
  unfold advisory, getattr, class_attr. cbn [exc_attrs exc_class_of].
  rewrite lookup_empty, Hsub. cbn [andb String.eqb Ascii.eqb Bool.eqb].
  destruct (is_os_error c); reflexivity.
Qed.

Lemma MyAppException_subclass_exits_1_witness :
  cli_run ([], Raise (Exception (Derived "QuotaError" (Derived "ApiError" MyAppException))
                        ∅ "quota")) =
    ([Log ERROR (MsgExc (Exception (Derived "QuotaError" (Derived "ApiError" MyAppException))
                           ∅ "quota"));
      Log CRITICAL (MsgFmt "MyApp exited with error %s (%s)"
                      [ArgStr "QuotaError"; ArgInt 1])],
     SysExit 1).
Proof.
  exact (MyAppException_subclass_exits_1 []
           (Derived "QuotaError" (Derived "ApiError" MyAppException)) "quota" eq_refl).
Defined.

End Classifier.

(** *** More on the argparse script *)

Section ArgparseHandlers.

Import ArgparseApp.

Lemma cli_methods_only_demo (method : string) (m : CmdApp -> M unit) :
  cli_methods !! method = Some m -> m = cli_demo.
Proof.
  unfold cli_methods. intros H.
  apply lookup_singleton_Some in H as [_ H]. symmetry. exact H.
Qed.

(** [cli] never raises and never exits: whatever the namespace holds, it
    returns to its caller. *)
Theorem cli_always_returns (self : CmdApp) :
  outcome (cli self) = Ret tt.
Proof.
  unfold cli. destruct (command_given (command (args self))) as [cmd |].
  - destruct (cli_methods !! ("cli_" +:+ cmd)) as [m |] eqn:Hm.
    + rewrite (cli_methods_only_demo _ m Hm). reflexivity.
    + reflexivity.
  - reflexivity.
Qed.

(** Once the command line has been parsed the script runs to its end: it
    returns the application object built from the namespace, with the
    logger level chosen for its verbosity, and the exit status is 0. *)
Theorem parsed_run_exits_0 (environ : gmap string string) (inv : invocation)
    (a : Namespace) :
  get_args environ inv = ret a ->
  outcome (script environ inv)
  = Ret {| args := a;
           log := {| lg_name := module_name;
                     lg_level := get_loglevel (verbose a);
                     lg_handlers := [StreamHandler DEBUG] |};
           loglevel := get_loglevel (verbose a) |}
  /\ exit_status (script environ inv) = 0.
Proof.
  intros Hparse.
  pose proof (CmdApp_init_parsed environ inv a Hparse) as Hrun. cbn zeta in Hrun.
  unfold exit_status. rewrite Hrun. cbn [outcome snd].
  rewrite cli_always_returns. split; reflexivity.
Qed.

Lemma parsed_run_exits_0_witness :
  outcome (script ∅ {| inv_verbose := 1;
                       inv_sub := Some (InvDemo None None true ["a"] ["x"; "y"]) |})
  = Ret {| args := {| verbose := 1; command := Some "demo";
                      sub := Some (DemoArgs "Unset" None true (Some ["a"]) ["x"; "y"]) |};
           log := {| lg_name := module_name;
                     lg_level := get_loglevel 1;
                     lg_handlers := [StreamHandler DEBUG] |};
           loglevel := get_loglevel 1 |}
  /\ exit_status (script ∅ {| inv_verbose := 1;
                              inv_sub := Some (InvDemo None None true ["a"] ["x"; "y"]) |})
     = 0.
Proof.
  exact (parsed_run_exits_0 ∅
           {| inv_verbose := 1;
              inv_sub := Some (InvDemo None None true ["a"] ["x"; "y"]) |}
           {| verbose := 1; command := Some "demo";
              sub := Some (DemoArgs "Unset" None true (Some ["a"]) ["x"; "y"]) |}
           eq_refl).
Defined.

(** The handlers that [get_logger] attaches are at DEBUG, so for the
    severities of the [logging] module (DEBUG and above) the logger's own
    level alone decides what is emitted, with or without a log file. *)
Theorem emitted_iff_above_loglevel (name file : option string) (v lvl : Z)
    (m : log_msg) :
  DEBUG <= lvl ->
  emitted (get_logger name file v).1 (Log lvl m) = (get_loglevel v <=? lvl).
Proof.
  intros Hlvl. unfold emitted. rewrite get_logger_level.
  assert (Hh : existsb (fun h => handler_level h <=? lvl)
                 (lg_handlers (get_logger name file v).1) = true).
  { apply Z.leb_le in Hlvl. unfold get_logger.
    destruct file; cbn [lg_handlers fst existsb handler_level]; rewrite Hlvl; reflexivity. }
  rewrite Hh. apply andb_true_r.
Qed.

Lemma emitted_iff_above_loglevel_witness :
  emitted (get_logger None (Some "app.log") 1).1 (Log INFO (MsgStr "hidden"))
  = (get_loglevel 1 <=? INFO).
Proof.
  exact (emitted_iff_above_loglevel None (Some "app.log") 1 INFO (MsgStr "hidden")
           ltac:(discriminate)).
Defined.

(** More repetitions of [-v] never hide a record that fewer let through. *)
Theorem more_verbose_never_hides (name file : option string) (v v' : Z)
    (e : event) :
  0 <= v -> v <= v' ->
  emitted (get_logger name file v).1 e = true ->
  emitted (get_logger name file v').1 e = true.
Proof.
  intros Hv Hle. destruct e as [lvl m | | | | |]; try (intros _; reflexivity).
  unfold emitted. rewrite !get_logger_level.
  intros H. apply andb_true_iff in H as [Hlevel Hhandler].
  apply andb_true_iff. split.
  - apply Z.leb_le. apply Z.leb_le in Hlevel.
    revert Hlevel. rewrite !get_loglevel_spec.
    unfold ERROR, WARN, WARNING, INFO, DEBUG. repeat case_decide; lia.
  - exact Hhandler.
Qed.

Lemma more_verbose_never_hides_witness :
  emitted (get_logger None None 2).1 (Log WARNING (MsgStr "Test Warning message")) = true.
Proof.
  exact (more_verbose_never_hides None None 1 2
           (Log WARNING (MsgStr "Test Warning message"))
           ltac:(lia) ltac:(lia) eq_refl).
Defined.

(** What the [demo] command shows.  Its handler logs four records, at
    ERROR, WARNING, INFO and DEBUG; with [v] repetitions of [-v] the first
    [min(v,3) + 1] of them are emitted: the error alone without [-v], all
    four from [-vvv] on. *)
Theorem demo_records_by_verbosity (environ : gmap string string)
    (inv : invocation) (a : Namespace) :
  get_args environ inv = ret a ->
  command_given (command a) = Some "demo" ->
  0 <= verbose a ->
  List.filter (emitted (get_logger None None (verbose a)).1)
              (trace (script environ inv))
  = take (Z.to_nat (Z.min (verbose a) 3) + 1)
      [Log ERROR (MsgStr "Test Critical message");
       Log WARNING (MsgStr "Test Warning message");
       Log INFO (MsgStr "Test Info message");
       Log DEBUG (MsgFmt "Command line vars: {vars(self.args)}" [])].
Proof.
  intros Hparse Hcmd Hv.
  rewrite (demo_command_runs_handler environ inv a Hparse Hcmd).
  cbn [List.filter].
  rewrite !emitted_iff_above_loglevel by discriminate.
  rewrite get_loglevel_spec.
  repeat case_decide.
  - replace (verbose a) with 0 by lia. reflexivity.
  - replace (verbose a) with 1 by lia. reflexivity.
  - replace (verbose a) with 2 by lia. reflexivity.
  - replace (Z.min (verbose a) 3) with 3 by lia. reflexivity.
Qed.

Lemma demo_records_by_verbosity_witness :
  List.filter (emitted (get_logger None None 1).1)
              (trace (script ∅ {| inv_verbose := 1;
                                  inv_sub := Some (InvDemo None None false [] []) |}))
  = [Log ERROR (MsgStr "Test Critical message");
     Log WARNING (MsgStr "Test Warning message")].
Proof.
  exact (demo_records_by_verbosity ∅
           {| inv_verbose := 1; inv_sub := Some (InvDemo None None false [] []) |}
           {| verbose := 1; command := Some "demo";
              sub := Some (DemoArgs "Unset" None false None []) |}
           eq_refl eq_refl ltac:(simpl; lia)).
Defined.

End ArgparseHandlers.

(** *** More on the Typer script *)

Section TyperHandlers.

Import TyperApp.

(** The enumeration and its values: looking a member's value up gives the
    member back, and a successful lookup returns a member with that value. *)
Theorem OutputFormat_round_trip :
  (forall f : OutputFormat, OutputFormat_of_value (OutputFormat_value f) = Some f)
  /\ (forall (s : string) (f : OutputFormat),
        OutputFormat_of_value s = Some f -> OutputFormat_value f = s).
Proof.
  split.
  - intros []; reflexivity.
  - intros s f. unfold OutputFormat_of_value, OutputFormat_members.
    cbn [find OutputFormat_value].
    repeat match goal with
           | |- context [String.eqb ?a s] =>
               destruct (String.eqb_spec a s) as [<- | _]
           end;
      intros H; inversion H; reflexivity.
Qed.

(** The script never ends by returning or by an uncaught exception: for
    every command line it ends in [sys.exit], with the status of the help
    page, 0, 2 (usage error) or 255 (internal error). *)
Theorem script_always_exits (no_args_status : Z) (environ : gmap string string)
    (inv : invocation) :
  exists code,
    outcome (script no_args_status environ inv) = SysExit code
    /\ (code = no_args_status \/ code = 0 \/ code = 2 \/ code = 255).
Proof.
  unfold script, cli_app.
  destruct (no_args_is_help && no_args inv); [eexists; split; [reflexivity | tauto] |].
  destruct (negb _); [eexists; split; [reflexivity | tauto] |].
  generalize (Path (option_value (inv_config inv) working_dir_envvar
                      working_dir_default environ))
    as wd.
  intros wd. unfold main.
  destruct (inv_version inv), (inv_command inv) as [[| | mode format target | []] |];
    cbn [run_command];
    try destruct (OutputFormat_of_value format);
    eexists; (split; [reflexivity | tauto]).
Qed.

(** The internal-error status comes from one kind of command line only:
    leaving aside the empty command line, the script exits with 255 exactly
    when the version flag is combined with a well-formed [command1]. *)
Theorem internal_error_only_with_version (no_args_status : Z)
    (environ : gmap string string) (inv : invocation) :
  no_args inv = false ->
  (exit_status (script no_args_status environ inv) = 255
   <-> 0 <= inv_verbose inv <= 3
       /\ inv_version inv = true
       /\ exists mode format target f,
            inv_command inv = Some (CmdCommand1 mode format target)
            /\ OutputFormat_of_value format = Some f).
Proof.
  intros Hargs. split.
  - unfold script, cli_app. rewrite Hargs, andb_false_r.
    destruct (Z.leb_spec 0 (inv_verbose inv)) as [Hlo |];
      [| cbn; discriminate].
    destruct (Z.leb_spec (inv_verbose inv) 3) as [Hhi |];
      [| cbn; discriminate].
    cbn [andb negb].
    generalize (Path (option_value (inv_config inv) working_dir_envvar
                        working_dir_default environ))
      as wd.
    intros wd. unfold main.
    destruct (inv_version inv), (inv_command inv) as [[| | mode format target | []] |];
      cbn [run_command];
      try destruct (OutputFormat_of_value format) as [f |] eqn:Hf;
      try (cbn; discriminate).
    intros _. repeat split; try assumption.
    exists mode, format, target, f. split; [reflexivity | exact Hf].
  - intros (Hv & Hversion & mode & format & target & f & Hcmd & Hf).
    destruct inv as [v config version cmd]. cbn in Hv, Hversion, Hcmd. subst.
    exact (version_then_command1 no_args_status environ v config mode target format f Hv Hf).
Qed.

Lemma internal_error_only_with_version_witness :
  exit_status (script 0 ∅ {| inv_verbose := 2; inv_config := None; inv_version := true;
                             inv_command := Some (CmdCommand1 None "json" (Some "all")) |})
  = 255
  <-> 0 <= 2 <= 3
      /\ true = true
      /\ exists mode format target f,
           Some (CmdCommand1 None "json" (Some "all"))
           = Some (CmdCommand1 mode format target)
           /\ OutputFormat_of_value format = Some f.
Proof.
  exact (internal_error_only_with_version 0 ∅
           {| inv_verbose := 2; inv_config := None; inv_version := true;
              inv_command := Some (CmdCommand1 None "json" (Some "all")) |}
           eq_refl).
Defined.

(** The commands of [group1]: after the level is set (and the version
    printed, if asked for) the group's callback prints its line, then the
    command prints its own, and the script exits with 0.  These commands do
    not read [ctx.obj], so the version flag does not make them fail. *)
Theorem group1_callback_runs_first (no_args_status : Z)
    (environ : gmap string string) (v : Z) (config : option string)
    (version : bool) (sub : group1_command) :
  0 <= v <= 3 ->
  script no_args_status environ
    {| inv_verbose := v; inv_config := config; inv_version := version;
       inv_command := Some (CmdGroup1 sub) |}
  = (SetLevel (if 3 <=? v then RootLogger else PackageLogger) (main_loglevel v)
     :: (if version then [Print app_version] else [])
     ++ [Print "Executed before all source commands";
         Print match sub with
               | SrcLs => "List sources"
               | SrcInstall => "Install a source"
               | SrcUpdate => "Update sources"
               end],
     SysExit 0).
Proof.
  intros Hv. unfold script.
  rewrite cli_app_dispatch; [| by eapply no_args_command | exact Hv].
  cbn [inv_verbose inv_config inv_version inv_command].
  unfold main. destruct version, sub; reflexivity.
Qed.

Lemma group1_callback_runs_first_witness :
  script 0 ∅ {| inv_verbose := 0; inv_config := None; inv_version := true;
                inv_command := Some (CmdGroup1 SrcInstall) |}
  = ([SetLevel PackageLogger WARNING;
      Print app_version;
      Print "Executed before all source commands";
      Print "Install a source"],
     SysExit 0).
Proof.
  exact (group1_callback_runs_first 0 ∅ 0 None true SrcInstall ltac:(lia)).
Defined.

(** What the [logging] command shows.  Its four records go to the root
    logger.  Run as a script ([__package__] empty) the INFO record appears
    from one [-v] on; imported from a package, [-v] and [-vv] only move the
    package's logger and the INFO record appears with [-vvv] alone.  The
    CRITICAL, ERROR and WARNING records always appear. *)
Theorem logging_command_shown (no_args_status : Z) (environ : gmap string string)
    (package : option string) (v : Z) (config : option string) (version : bool) :
  0 <= v <= 3 ->
  shown package WARNING
    (trace (script no_args_status environ
              {| inv_verbose := v; inv_config := config; inv_version := version;
                 inv_command := Some CmdLogging |}))
  = [Log CRITICAL (MsgStr "SHOW CRITICAL");
     Log ERROR (MsgStr "SHOW ERROR");
     Log WARNING (MsgStr "SHOW WARNING")]
    ++ (if (if package_is_root package then 1 <=? v else 3 <=? v)
        then [Log INFO (MsgStr "SHOW INFO")]
        else []).
Proof.
  intros Hv. unfold script.
  rewrite cli_app_dispatch; [| by eapply no_args_command | exact Hv].
  cbn [inv_verbose inv_config inv_version inv_command].
  assert (Hcases : v = 0 \/ v = 1 \/ v = 2 \/ v = 3) by lia.
  destruct Hcases as [-> | [-> | [-> | ->]]];
    destruct version, (package_is_root package) eqn:Hroot;
    cbn; rewrite ?Hroot; reflexivity.
Qed.

Lemma logging_command_shown_witness :
  shown (Some "my_app") WARNING
    (trace (script 0 ∅ {| inv_verbose := 2; inv_config := None; inv_version := false;
                          inv_command := Some CmdLogging |}))
  = [Log CRITICAL (MsgStr "SHOW CRITICAL");
     Log ERROR (MsgStr "SHOW ERROR");
     Log WARNING (MsgStr "SHOW WARNING")].
Proof.
  exact (logging_command_shown 0 ∅ (Some "my_app") 2 None false ltac:(lia)).
Defined.

End TyperHandlers.

(** *** The threshold a run installs *)

Section Thresholds.

(** A Typer run that gets past the parser starts by setting the level
    computed from the count. *)
Lemma script_sets_level (status : Z) (environ : gmap string string)
    (inv : TyperApp.invocation) :
  TyperApp.no_args inv = false ->
  0 <= TyperApp.inv_verbose inv <= 3 ->
  TyperApp.threshold_set (trace (TyperApp.script status environ inv))
  = Some (TyperApp.main_loglevel (TyperApp.inv_verbose inv)).
Proof.
  intros Hargs Hv. unfold TyperApp.script.
  rewrite cli_app_dispatch by assumption.
  generalize (TyperApp.Path
                (TyperApp.option_value (TyperApp.inv_config inv)
                   TyperApp.working_dir_envvar TyperApp.working_dir_default environ))
    as wd.
  intros wd. unfold TyperApp.main.
  destruct (TyperApp.inv_version inv),
    (TyperApp.inv_command inv) as [[| | mode format target | []] |];
    cbn [TyperApp.run_command];
    try destruct (TyperApp.OutputFormat_of_value format);
    reflexivity.
Qed.

(** More than three repetitions do not pass the Typer parser. *)
Lemma script_rejects_count (status : Z) (environ : gmap string string)
    (inv : TyperApp.invocation) :
  3 < TyperApp.inv_verbose inv ->
  TyperApp.script status environ inv
  = ([UsageError "Invalid value for '--verbose' / '-v'"], SysExit 2).
Proof.
  intros Hv. unfold TyperApp.script, TyperApp.cli_app.
  assert (Hargs : TyperApp.no_args inv = false).
  { unfold TyperApp.no_args.
    destruct (TyperApp.inv_config inv), (TyperApp.inv_command inv); try reflexivity.
    destruct (Z.eqb_spec (TyperApp.inv_verbose inv) 0); [lia | reflexivity]. }
  rewrite Hargs, andb_false_r.
  destruct (Z.leb_spec (TyperApp.inv_verbose inv) 3); [lia |].
  rewrite andb_false_r. reflexivity.
Qed.

(** C4, as stated, fails on the Typer script: a count above the table's
    range is not clamped to DEBUG.  With four [-v] the run is a usage error
    with exit code 2, and no level is set. *)
Lemma typer_count_above_three_rejected :
  TyperApp.script 0 ∅
    {| TyperApp.inv_verbose := 4; TyperApp.inv_config := None;
       TyperApp.inv_version := false;
       TyperApp.inv_command := Some TyperApp.CmdLogging |}
  = ([UsageError "Invalid value for '--verbose' / '-v'"], SysExit 2)
  /\ TyperApp.threshold_set
       (trace (TyperApp.script 0 ∅
                 {| TyperApp.inv_verbose := 4; TyperApp.inv_config := None;
                    TyperApp.inv_version := false;
                    TyperApp.inv_command := Some TyperApp.CmdLogging |}))
     = None.
Proof. split; reflexivity. Qed.

(** C4 (amended): in the argparse script the level of the logger that a
    run builds never rises when the count of [-v] grows, never goes below
    DEBUG, and is DEBUG for every count of 3 or more.  In the Typer script
    the same holds for the level that a run sets, over the counts 0 to 3
    that its parser admits, with DEBUG at 3; a higher count is a usage
    error (exit code 2) and sets no level. *)
Theorem verbosity_threshold_clamp :
  (forall (environ : gmap string string) (ia ib : ArgparseApp.invocation)
          (a b : ArgparseApp.Namespace),
     ArgparseApp.get_args environ ia = ret a ->
     ArgparseApp.get_args environ ib = ret b ->
     0 <= ArgparseApp.verbose a ->
     ArgparseApp.verbose a <= ArgparseApp.verbose b ->
     exists sa sb,
       outcome (ArgparseApp.script environ ia) = Ret sa
       /\ outcome (ArgparseApp.script environ ib) = Ret sb
       /\ DEBUG <= ArgparseApp.lg_level (ArgparseApp.log sb)
                <= ArgparseApp.lg_level (ArgparseApp.log sa)
       /\ (3 <= ArgparseApp.verbose b ->
           ArgparseApp.lg_level (ArgparseApp.log sb) = DEBUG))
  /\ (forall (status : Z) (environ : gmap string string)
             (ia ib : TyperApp.invocation),
        TyperApp.no_args ia = false ->
        TyperApp.no_args ib = false ->
        0 <= TyperApp.inv_verbose ia ->
        TyperApp.inv_verbose ia <= TyperApp.inv_verbose ib ->
        TyperApp.inv_verbose ib <= 3 ->
        exists la lb,
          TyperApp.threshold_set (trace (TyperApp.script status environ ia)) = Some la
          /\ TyperApp.threshold_set (trace (TyperApp.script status environ ib)) = Some lb
          /\ DEBUG <= lb <= la
          /\ (TyperApp.inv_verbose ib = 3 -> lb = DEBUG))
  /\ (forall (status : Z) (environ : gmap string string)
             (inv : TyperApp.invocation),
        3 < TyperApp.inv_verbose inv ->
        TyperApp.script status environ inv
        = ([UsageError "Invalid value for '--verbose' / '-v'"], SysExit 2)
        /\ TyperApp.threshold_set (trace (TyperApp.script status environ inv)) = None).
Proof.
  split; [| split].
  - intros environ ia ib a b Hpa Hpb Ha Hab.
    pose proof (CmdApp_init_parsed environ ia a Hpa) as Hra.
    pose proof (CmdApp_init_parsed environ ib b Hpb) as Hrb.
    cbn zeta in Hra, Hrb.
    rewrite cli_always_returns in Hra, Hrb.
    eexists. eexists. rewrite Hra, Hrb. cbn [outcome snd].
    split; [reflexivity |]. split; [reflexivity |].
    cbn [ArgparseApp.log]. rewrite !get_logger_level.
    destruct (loglevel_monotonic_clamp (ArgparseApp.verbose a) (ArgparseApp.verbose b)
                Ha Hab) as [[Hargparse _] Hclamp].
    split; [exact Hargparse |]. intros H3. exact (proj1 (Hclamp H3)).
  - intros status environ ia ib Hna Hnb Ha Hab Hb.
    exists (TyperApp.main_loglevel (TyperApp.inv_verbose ia)),
           (TyperApp.main_loglevel (TyperApp.inv_verbose ib)).
    rewrite !script_sets_level by (assumption || lia).
    split; [reflexivity |]. split; [reflexivity |].
    destruct (loglevel_monotonic_clamp (TyperApp.inv_verbose ia)
                (TyperApp.inv_verbose ib) Ha Hab) as [[_ Htyper] Hclamp].
    split; [exact Htyper |]. intros H3. apply Hclamp. lia.
  - intros status environ inv Hv.
    rewrite (script_rejects_count status environ inv Hv).
    split; reflexivity.
Qed.

Lemma verbosity_threshold_clamp_witness :
  (exists sa sb,
     outcome (ArgparseApp.script ∅
                {| ArgparseApp.inv_verbose := 1;
                   ArgparseApp.inv_sub := Some (ArgparseApp.InvSubcommand2 "x") |})
     = Ret sa
     /\ outcome (ArgparseApp.script ∅
                   {| ArgparseApp.inv_verbose := 5;
                      ArgparseApp.inv_sub := Some (ArgparseApp.InvSubcommand2 "x") |})
        = Ret sb
     /\ DEBUG <= ArgparseApp.lg_level (ArgparseApp.log sb)
              <= ArgparseApp.lg_level (ArgparseApp.log sa)
     /\ ArgparseApp.lg_level (ArgparseApp.log sb) = DEBUG)
  /\ (exists la lb,
        TyperApp.threshold_set
          (trace (TyperApp.script 0 ∅
                    {| TyperApp.inv_verbose := 1; TyperApp.inv_config := None;
                       TyperApp.inv_version := true; TyperApp.inv_command := None |}))
        = Some la
        /\ TyperApp.threshold_set
             (trace (TyperApp.script 0 ∅
                       {| TyperApp.inv_verbose := 3; TyperApp.inv_config := None;
                          TyperApp.inv_version := true; TyperApp.inv_command := None |}))
           = Some lb
        /\ DEBUG <= lb <= la
        /\ lb = DEBUG).
Proof.
  destruct verbosity_threshold_clamp as (Hargparse & Htyper & _).
  split.
  - destruct (Hargparse ∅
                {| ArgparseApp.inv_verbose := 1;
                   ArgparseApp.inv_sub := Some (ArgparseApp.InvSubcommand2 "x") |}
                {| ArgparseApp.inv_verbose := 5;
                   ArgparseApp.inv_sub := Some (ArgparseApp.InvSubcommand2 "x") |}
                {| ArgparseApp.verbose := 1; ArgparseApp.command := Some "subcommand2";
                   ArgparseApp.sub := Some (ArgparseApp.Subcommand2Args "x") |}
                {| ArgparseApp.verbose := 5; ArgparseApp.command := Some "subcommand2";
                   ArgparseApp.sub := Some (ArgparseApp.Subcommand2Args "x") |}
                eq_refl eq_refl ltac:(simpl; lia) ltac:(simpl; lia))
      as (sa & sb & Hsa & Hsb & Hle & Hclamp).
    exists sa, sb. repeat split; try assumption; try apply Hle.
    apply Hclamp. simpl. lia.
  - destruct (Htyper 0 ∅
                {| TyperApp.inv_verbose := 1; TyperApp.inv_config := None;
                   TyperApp.inv_version := true; TyperApp.inv_command := None |}
                {| TyperApp.inv_verbose := 3; TyperApp.inv_config := None;
                   TyperApp.inv_version := true; TyperApp.inv_command := None |}
                eq_refl eq_refl ltac:(simpl; lia) ltac:(simpl; lia) ltac:(simpl; lia))
      as (la & lb & Hla & Hlb & Hle & Hclamp).
    exists la, lb. repeat split; try assumption; try apply Hle.
    apply Hclamp. reflexivity.
Defined.

End Thresholds.
